(** * visca-ip-to-visca: the VISCA-over-IP packet codec and the UDP/serial relay

    A shallow embedding of [src/index.ts] (current revision) and of the
    older revision of the same file, followed by the properties of the
    codec ([ViscaIpPacket.toBuffer], [ViscaIpPacket.fromBuffer],
    [ViscaIpPacket._parseType]) and of the two event handlers of [main]
    ([socket.on('message')] and [serialPortParser.on('data')]).

    Conventions.
    - A JavaScript [number] holding an integer is a [Z]; a variable that
      the program initialises with [null] ([number | null]) is an
      [option Z], [None] standing for [null].
    - A Node [Buffer] is a [list byte].
    - A function that can [throw] returns a [Result]; the handlers, which
      also read and assign the module-level variables and perform I/O, live
      in the [Handler] monad below. *)

From Stdlib Require Import ZArith List Lia Bool String Ascii.
From Stdlib Require Import Strings.Byte.
From Stdlib Require Import Floats.
Import ListNotations.

Local Open Scope Z_scope.

(** ** JavaScript numbers and Node buffers *)

Definition Buffer : Type := list byte.

Module JS.

(** The value of a byte read from a buffer ([buffer[i]]). *)
Definition byteValue (b : byte) : Z := Z.of_N (Byte.to_N b).

(** [ToNumber] on [number | null]: [null] converts to [0]. *)
Definition ToNumber (x : option Z) : Z :=
  match x with
  | Some n => n
  | None => 0
  end.

(** [ToUint32], the conversion [>>>] applies to its left operand. *)
Definition ToUint32 (x : Z) : Z := x mod 2 ^ 32.

(** [x >>> n] for a shift count [0 <= n < 32]. *)
Definition ushr (x : Z) (n : Z) : Z := Z.shiftr (ToUint32 x) n.

(** [ToUint8], the conversion [Buffer.from(array)] applies to every
    element of the array. *)
Definition ToUint8 (x : Z) : byte :=
  match Byte.of_N (Z.to_N (x mod 256)) with
  | Some b => b
  | None => x00
  end.

(** [Buffer.from([...])] on an array of numbers. *)
Definition Buffer_from (array : list Z) : Buffer := map ToUint8 array.

(** [...buffer] inside an array literal: the bytes as numbers. *)
Definition spread (buffer : Buffer) : list Z := map byteValue buffer.

(** [buffer.length] as a number. *)
Definition length (buffer : Buffer) : Z := Z.of_nat (List.length buffer).

(** [buffer.subarray(start)] for [0 <= start]: the bytes from index
    [start] on, none when [start] is past the end. *)
Definition subarray (buffer : Buffer) (start : nat) : Buffer :=
  skipn start buffer.

End JS.

(** ** Exceptions and the [Result] monad *)

(** What the program can throw.
    - [UnknownCategory value]: [new Error(`Unknown packet type: ...`)] of
      [_parseType];
    - [LengthMismatch length actual]:
      [new Error(`Expected payload with length ${length}. Actual length: ${payload.length}`)]
      of [fromBuffer];
    - [RangeError offset]: Node's [RangeError] ([ERR_OUT_OF_RANGE] or
      [ERR_BUFFER_OUT_OF_BOUNDS]) of [readUInt16BE]/[readUInt32BE] when the
      bytes to read are not all inside the buffer;
    - [TypeError property]: reading [property] of [null];
    - [ERR_SOCKET_BAD_PORT port]: Node's [RangeError] of [socket.send] for a
      destination port that is not an integer between 1 and 65535. *)
Inductive Exception : Type :=
| UnknownCategory (value : Z)
| LengthMismatch (length actual : Z)
| RangeError (offset : nat)
| TypeError (property : string)
| ERR_SOCKET_BAD_PORT (port : Z).

Inductive Result (A : Type) : Type :=
| Return (a : A)
| Throw (e : Exception).

Arguments Return {A} a.
Arguments Throw {A} e.

Definition bind {A B : Type} (r : Result A) (k : A -> Result B) : Result B :=
  match r with
  | Return a => k a
  | Throw e => Throw e
  end.

Declare Scope result_scope.
Delimit Scope result_scope with result.
Notation "x <- r ;; k" := (bind r (fun x => k))
  (at level 61, r at next level, right associativity) : result_scope.
Local Open Scope result_scope.

(** The two failures the codec itself raises, as opposed to those of the
    buffer reads. *)
Definition isMalformedPacket (e : Exception) : bool :=
  match e with
  | UnknownCategory _ | LengthMismatch _ _ => true
  | RangeError _ | TypeError _ | ERR_SOCKET_BAD_PORT _ => false
  end.

(** ** Buffer reads *)

(** [buffer.readUInt16BE(offset)]: Node reads [this[offset]] and
    [this[offset + 1]] and throws when either is [undefined]. *)
Definition readUInt16BE (buffer : Buffer) (offset : nat) : Result Z :=
  match nth_error buffer offset, nth_error buffer (offset + 1) with
  | Some first, Some last =>
      Return (JS.byteValue first * 2 ^ 8 + JS.byteValue last)
  | _, _ => Throw (RangeError offset)
  end.

(** [buffer.readUInt32BE(offset)]: Node checks the first and the last of
    the four bytes. *)
Definition readUInt32BE (buffer : Buffer) (offset : nat) : Result Z :=
  match nth_error buffer offset, nth_error buffer (offset + 3) with
  | Some first, Some last =>
      Return (JS.byteValue first * 2 ^ 24
              + JS.byteValue (nth (offset + 1) buffer x00) * 2 ^ 16
              + JS.byteValue (nth (offset + 2) buffer x00) * 2 ^ 8
              + JS.byteValue last)
  | _, _ => Throw (RangeError offset)
  end.

(** ** The packet codec (current revision) *)

(** [enum ViscaIpPacketType]: a numeric enum, so a value of the type is the
    number itself. *)
Module ViscaIpPacketType.
Definition command : Z := 0x0100.
Definition inquiry : Z := 0x0110.
Definition reply : Z := 0x0111.
Definition deviceSettingCommand : Z := 0x0120.
Definition controlCommand : Z := 0x0200.
Definition controlReply : Z := 0x0201.

(** The six members. *)
Definition members : list Z :=
  [command; inquiry; reply; deviceSettingCommand; controlCommand;
   controlReply].

Definition isMember (value : Z) : bool :=
  existsb (Z.eqb value) members.
End ViscaIpPacketType.

(** [class ViscaIpPacket]. [sequenceNumber] is nullable because the serial
    handler passes the module-level [currentSequenceNumber] to
    [fromPayload]. *)
Record ViscaIpPacket : Type := mkViscaIpPacket {
  type : Z;
  length : Z;
  sequenceNumber : option Z;
  payload : Buffer
}.

Definition toBuffer (this : ViscaIpPacket) : Buffer :=
  JS.Buffer_from ([
    JS.ushr (type this) 8;
    type this;
    JS.ushr (length this) 8;
    length this;
    JS.ushr (JS.ToNumber (sequenceNumber this)) 24;
    JS.ushr (JS.ToNumber (sequenceNumber this)) 16;
    JS.ushr (JS.ToNumber (sequenceNumber this)) 8;
    JS.ToNumber (sequenceNumber this)
  ] ++ JS.spread (payload this)).

Definition _parseType (value : Z) : Result Z :=
  if (value =? ViscaIpPacketType.command)
     || (value =? ViscaIpPacketType.inquiry)
     || (value =? ViscaIpPacketType.reply)
     || (value =? ViscaIpPacketType.deviceSettingCommand)
     || (value =? ViscaIpPacketType.controlCommand)
     || (value =? ViscaIpPacketType.controlReply)
  then Return value
  else Throw (UnknownCategory value).

Definition fromBuffer (buffer : Buffer) : Result ViscaIpPacket :=
  type <- (value <- readUInt16BE buffer 0 ;; _parseType value) ;;
  length <- readUInt16BE buffer 2 ;;
  sequenceNumber <- readUInt32BE buffer 4 ;;
  let payload := JS.subarray buffer 8 in
  if negb (JS.length payload =? length)
  then Throw (LengthMismatch length (JS.length payload))
  else Return (mkViscaIpPacket type length (Some sequenceNumber) payload).

Definition fromPayload (type : Z) (sequenceNumber : option Z)
    (payload : Buffer) : ViscaIpPacket :=
  mkViscaIpPacket type (JS.length payload) sequenceNumber payload.

(** ** The packet-type parser of the older revision *)

Module Legacy.

(** The older [enum ViscaIpPacketType] has three members. *)
Module ViscaIpPacketType.
Definition command : Z := 0x0100.
Definition inquiry : Z := 0x0110.
Definition reply : Z := 0x0111.
End ViscaIpPacketType.

Definition _parseType (value : Z) : Result Z :=
  if value =? ViscaIpPacketType.command
  then Return ViscaIpPacketType.command
  else if value =? ViscaIpPacketType.inquiry
  then Return ViscaIpPacketType.inquiry
  else if value =? ViscaIpPacketType.reply
  then Return ViscaIpPacketType.command
  else Throw (UnknownCategory value).

End Legacy.

(** ** Diagnostic rendering *)

(** [buffer.toString('hex')]: two lower-case hexadecimal digits a byte. *)
Definition hexDigit (n : N) : ascii :=
  nth (N.to_nat n) (list_ascii_of_string "0123456789abcdef") "0"%char.

Definition toString_hex (buffer : Buffer) : list ascii :=
  flat_map
    (fun b => [hexDigit (Byte.to_N b / 16); hexDigit (Byte.to_N b mod 16)])
    buffer.

(** [toUpperCase] on one character. *)
Definition toUpperCase (c : ascii) : ascii :=
  let n := nat_of_ascii c in
  if (Nat.leb 97 n && Nat.leb n 122)%bool then ascii_of_nat (n - 32) else c.

(** The callback of [reduce]: a character at an even index starts a new
    entry, one at an odd index is appended to entry [floor(index / 2)]. That
    entry is always there, since the even index before pushed it; the
    model leaves the array alone where the entry is missing. *)
Fixpoint appendAt (array : list string) (previousIndex : nat) (character : ascii)
  : list string :=
  match array, previousIndex with
  | [], _ => []
  | entry :: rest, O => (entry ++ String character EmptyString)%string :: rest
  | entry :: rest, S i => entry :: appendAt rest i character
  end.

Definition reducer (array : list string) (item : ascii * nat) : list string :=
  let (character, index) := item in
  if Nat.eqb (Nat.modulo index 2) 0
  then array ++ [String character EmptyString]
  else appendAt array (Nat.div index 2) character.

Definition bufferToHexString (buffer : Buffer) : string :=
  let characters := map toUpperCase (toString_hex buffer) in
  String.concat " "
    (fold_left reducer
       (combine characters (seq 0 (List.length characters))) []).

Definition toHexString (this : ViscaIpPacket) : string :=
  bufferToHexString (toBuffer this).

(** ** The relay: module-level variables, effects and the handler monad *)

(** [RemoteInfo] of [dgram]: the fields the program reads. *)
Record RemoteInfo : Type := mkRemoteInfo {
  address : string;
  port : Z
}.

(** The three module-level variables, each initialised with [null]. *)
Record Session : Type := mkSession {
  currentSequenceNumber : option Z;
  currentRemoteInfo : option RemoteInfo;
  currentPacketType : option Z
}.

Definition initialSession : Session := mkSession None None None.

(** The lines the two handlers write with [console.log]. *)
Inductive LogLine : Type :=
| SocketRECV (hex : string)
| SerialSEND (hex : string)
| SocketRECVError (e : Exception)
| SerialRECV (hex : string)
| SocketSEND (hex : string).

(** What a handler does to the outside world, in order. The callbacks
    passed to [serialPort.write] and [socket.send] run later and only log an
    asynchronous failure; they are not part of the handler's own run. *)
Inductive Effect : Type :=
| console_log (line : LogLine)
| serialPort_write (data : Buffer)
| socket_send (msg : Buffer) (port : Z) (address : string).

(** The state of a handler after it ran: the module-level variables, the
    effects performed so far and either its value or the exception that left
    it. Assignments and effects made before a [throw] stay. *)
Record Run (A : Type) : Type := mkRun {
  session : Session;
  effects : list Effect;
  outcome : Result A
}.

Arguments mkRun {A} session effects outcome.
Arguments session {A} r.
Arguments effects {A} r.
Arguments outcome {A} r.

Definition Handler (A : Type) : Type := Session -> Run A.

Definition hret {A : Type} (a : A) : Handler A :=
  fun s => mkRun s [] (Return a).

Definition hbind {A B : Type} (h : Handler A) (k : A -> Handler B)
  : Handler B :=
  fun s =>
    let r := h s in
    match outcome r with
    | Return a =>
        let r' := k a (session r) in
        mkRun (session r') (effects r ++ effects r') (outcome r')
    | Throw e => mkRun (session r) (effects r) (Throw e)
    end.

Declare Scope handler_scope.
Delimit Scope handler_scope with handler.
Notation "x <- h ;; k" := (hbind h (fun x => k))
  (at level 61, h at next level, right associativity) : handler_scope.
Notation "h ;;; k" := (hbind h (fun _ => k))
  (at level 61, right associativity) : handler_scope.

(** A call of a function that can throw. *)
Definition call {A : Type} (r : Result A) : Handler A :=
  fun s => mkRun s [] r.

(** [try { body } catch (e) { handler }]. *)
Definition try_catch {A : Type} (body : Handler A)
    (handler : Exception -> Handler A) : Handler A :=
  fun s =>
    let r := body s in
    match outcome r with
    | Return a => r
    | Throw e =>
        let r' := handler e (session r) in
        mkRun (session r') (effects r ++ effects r') (outcome r')
    end.

Definition perform (e : Effect) : Handler unit :=
  fun s => mkRun s [e] (Return tt).

Definition read {A : Type} (variable : Session -> A) : Handler A :=
  fun s => mkRun s [] (Return (variable s)).

Definition assign (update : Session -> Session) : Handler unit :=
  fun s => mkRun (update s) [] (Return tt).

Definition set_currentSequenceNumber (v : option Z) (s : Session) : Session :=
  mkSession v (currentRemoteInfo s) (currentPacketType s).

Definition set_currentRemoteInfo (v : option RemoteInfo) (s : Session)
  : Session :=
  mkSession (currentSequenceNumber s) v (currentPacketType s).

Definition set_currentPacketType (v : option Z) (s : Session) : Session :=
  mkSession (currentSequenceNumber s) (currentRemoteInfo s) v.

(** [object.property] where [object] may be [null]. *)
Definition property {A B : Type} (object : option A) (name : string)
    (field : A -> B) : Handler B :=
  match object with
  | Some o => hret (field o)
  | None => call (Throw (TypeError name))
  end.

(** [x === member] for a nullable [x] and an enum member. *)
Definition strictEquals (x : option Z) (member : Z) : bool :=
  match x with
  | Some v => v =? member
  | None => false
  end.

(** The ports [socket.send] accepts as a destination: Node's
    [validatePort] with zero not allowed. *)
Definition isValidPort (port : Z) : bool := (0 <? port) && (port <? 65536).

(** [socket.send(msg, port, address, callback)]. Node checks the port
    before anything is sent and throws [ERR_SOCKET_BAD_PORT] when the check
    fails; a datagram received from UDP source port 0 gives such a port. A
    failure of the send itself is reported later to the callback. *)
Definition socketSend (msg : Buffer) (port : Z) (address : string)
  : Handler unit :=
  if isValidPort port
  then perform (socket_send msg port address)
  else call (Throw (ERR_SOCKET_BAD_PORT port)).

(** ** The two handlers of [main] *)

(** [socket.on('message', (msgBuffer, remoteInfo) => ...)]. *)
Definition onMessage (msgBuffer : Buffer) (remoteInfo : RemoteInfo)
  : Handler unit :=
  (try_catch
     (receivedPacket <- call (fromBuffer msgBuffer) ;;
      perform (console_log (SocketRECV (toHexString receivedPacket))) ;;;
      assign (set_currentSequenceNumber (sequenceNumber receivedPacket)) ;;;
      assign (set_currentRemoteInfo (Some remoteInfo)) ;;;
      assign (set_currentPacketType (Some (type receivedPacket))) ;;;
      perform (console_log
                 (SerialSEND (bufferToHexString (payload receivedPacket)))) ;;;
      perform (serialPort_write (payload receivedPacket)))
     (fun e => perform (console_log (SocketRECVError e))))%handler.

(** [serialPortParser.on('data', (responseData) => ...)]. The arguments of
    [socket.send] are evaluated left to right before the call, so reading
    [currentRemoteInfo.port] comes before the send and before the check of
    the port. *)
Definition onData (responseData : Buffer) : Handler unit :=
  (perform (console_log (SerialRECV (bufferToHexString responseData))) ;;;
   packetType <- read currentPacketType ;;
   let responsePacketType :=
     if strictEquals packetType ViscaIpPacketType.controlCommand
     then ViscaIpPacketType.controlReply
     else ViscaIpPacketType.reply in
   sequenceNumber <- read currentSequenceNumber ;;
   let responsePacket :=
     fromPayload responsePacketType sequenceNumber responseData in
   perform (console_log (SocketSEND (toHexString responsePacket))) ;;;
   remoteInfo <- read currentRemoteInfo ;;
   remotePort <- property remoteInfo "port" port ;;
   remoteAddress <- property remoteInfo "address" address ;;
   socketSend (toBuffer responsePacket) remotePort remoteAddress
  )%handler.

(** ** The event loop *)

Inductive Event : Type :=
| message (msgBuffer : Buffer) (remoteInfo : RemoteInfo)
| data (responseData : Buffer).

Definition dispatch (ev : Event) : Handler unit :=
  match ev with
  | message msgBuffer remoteInfo => onMessage msgBuffer remoteInfo
  | data responseData => onData responseData
  end.

(** The handlers run one after the other, never interleaved. An exception
    that leaves a handler is caught by nothing in the program ([main] wraps
    no handler call and installs no ['uncaughtException'] listener), which
    by Node's default ends the process: the run stops there and the events
    after it are not handled. *)
Fixpoint runEvents (evs : list Event) : Handler unit :=
  match evs with
  | [] => hret tt
  | ev :: rest => (dispatch ev ;;; runEvents rest)%handler
  end.

(** The process is still running after a run when no exception left a
    handler. *)
Definition keepsRunning {A : Type} (r : Run A) : bool :=
  match outcome r with
  | Return _ => true
  | Throw _ => false
  end.

(** The datagrams handed to [socket.send]: payload, port and address. *)
Definition networkSends (es : list Effect) : list (Buffer * Z * string) :=
  flat_map
    (fun e =>
       match e with
       | socket_send msg p a => [(msg, p, a)]
       | _ => []
       end) es.

(** The buffers handed to [serialPort.write]. *)
Definition serialWrites (es : list Effect) : list Buffer :=
  flat_map
    (fun e =>
       match e with
       | serialPort_write d => [d]
       | _ => []
       end) es.

(** ** Vocabulary and example inputs of the properties *)

(** A packet is valid when its category is one of the six members, its
    sequence number is an unsigned 32-bit integer, its length field is the
    number of payload bytes and that number is at most 65535. *)
Definition isValidPacket (p : ViscaIpPacket) : bool :=
  ViscaIpPacketType.isMember (type p)
  && match sequenceNumber p with
     | Some n => (0 <=? n) && (n <? 2 ^ 32)
     | None => false
     end
  && (length p =? JS.length (payload p))
  && (JS.length (payload p) <=? 65535).

Definition examplePacket : ViscaIpPacket :=
  mkViscaIpPacket ViscaIpPacketType.inquiry 5 (Some 0x01020304)
    [x81; x09; x04; x47; xff].

(** Declared 3 with 1 byte present, and declared 0 with 2 bytes present. *)
Definition declaredTooLarge : Buffer :=
  [x01; x00; x00; x03; x00; x00; x00; x07; x81].

Definition declaredTooSmall : Buffer :=
  [x02; x01; x00; x00; x00; x00; x00; x07; x90; xff].

Definition category0000 : Buffer :=
  [x00; x00; x00; x01; x00; x00; x00; x01; xff].

Definition categoryFFFF : Buffer :=
  [xff; xff; x00; x00; x00; x00; x00; x00].

(** Category [0x0300] is unknown and the header declares 5 bytes where 1
    follows. *)
Definition unknownAndMismatched : Buffer :=
  [x03; x00; x00; x05; x00; x00; x00; x09; xff].

(** The exception [fromBuffer] throws on a buffer shorter than eight bytes:
    the first read that does not fit throws [RangeError], unless the first
    two bytes are there and are not a member, which [_parseType] rejects
    first. *)
Definition shortBufferException (buffer : Buffer) : Exception :=
  match readUInt16BE buffer 0 with
  | Throw _ => RangeError 0
  | Return value =>
      if ViscaIpPacketType.isMember value
      then if (List.length buffer <? 4)%nat then RangeError 2 else RangeError 4
      else UnknownCategory value
  end.

Definition shortKnown : Buffer := [x01; x00; x00; x00; x00].

(** The category the serial handler gives the reply. *)
Definition responsePacketTypeFor (packetType : option Z) : Z :=
  if strictEquals packetType ViscaIpPacketType.controlCommand
  then ViscaIpPacketType.controlReply
  else ViscaIpPacketType.reply.

Definition peerA : RemoteInfo := mkRemoteInfo "192.168.0.10" 50000.
Definition peerB : RemoteInfo := mkRemoteInfo "192.168.0.20" 50001.

(** A context left by an earlier inquiry with sequence number 3. *)
Definition sessionAfterInquiry : Session :=
  mkSession (Some 3) (Some peerA) (Some ViscaIpPacketType.inquiry).

(** A control command with sequence number 1 and an inquiry with sequence
    number 2. *)
Definition request1 : Buffer :=
  [x02; x00; x00; x02; x00; x00; x00; x01; x01; xff].

Definition request2 : Buffer :=
  [x01; x10; x00; x05; x00; x00; x00; x02; x81; x09; x04; x47; xff].

Definition frame : Buffer := [x90; x50; xff].

(** ** Further functions of [src/index.ts] *)

(** [typeAsString()]. *)
Definition typeAsString (this : ViscaIpPacket) : string :=
  if type this =? ViscaIpPacketType.command then "command"
  else if type this =? ViscaIpPacketType.inquiry then "inquiry"
  else if type this =? ViscaIpPacketType.reply then "reply"
  else if type this =? ViscaIpPacketType.deviceSettingCommand
  then "device setting command"
  else if type this =? ViscaIpPacketType.controlCommand
  then "control command"
  else if type this =? ViscaIpPacketType.controlReply then "control reply"
  else "unknown".

(** [number >>> count] for any non-negative integer [count]: only the low
    five bits of the count are used. *)
Definition unsignedRightShift (number count : Z) : Z :=
  JS.ushr number (Z.land count 31).

(** The loop of [numberToHexString]: [i] runs from [bytes - 1] down to [0]
    and pushes [number >>> (i * 8)]. [bytes] is a non-negative integer. *)
Fixpoint numberArray (number : Z) (bytes : nat) : list Z :=
  match bytes with
  | O => []
  | S i => unsignedRightShift number (Z.of_nat i * 8) :: numberArray number i
  end.

(** [numberToHexString(number, bytes)]; the only call passes the default
    [bytes = 2]. *)
Definition numberToHexString (number : Z) (bytes : nat) : string :=
  bufferToHexString (JS.Buffer_from (numberArray number bytes)).

(** The message of the [Error] thrown by [_parseType]. *)
Definition unknownPacketTypeMessage (value : Z) : string :=
  ("Unknown packet type: " ++ numberToHexString value 2)%string.

(** ** The configuration: [config] and [loadConfig] *)

Set Warnings "-register-all".

(** A value [JSON.parse] returns. A number is an IEEE 754 double. The
    members of an object are listed in the order of the text. *)
Inductive JsonValue : Type :=
| JsonNull
| JsonBoolean (b : bool)
| JsonNumber (x : float)
| JsonString (s : string)
| JsonArray (elements : list JsonValue)
| JsonObject (members : list (string * JsonValue)).

Set Warnings "register-all".

(** The member of a parsed object under a key: when the text repeats a
    key, [JSON.parse] keeps the last occurrence. [None] is [undefined]. *)
Fixpoint lookupLast (members : list (string * JsonValue)) (name : string)
  : option JsonValue :=
  match members with
  | [] => None
  | (key, value) :: rest =>
      match lookupLast rest name with
      | Some later => Some later
      | None => if String.eqb key name then Some value else None
      end
  end.

(** [loadedConfig.name] for a name that no built-in prototype defines, as
    the three names [loadConfig] reads: the member of an object,
    [undefined] on an array, string, number or boolean, and a [TypeError]
    on [null]. *)
Definition getMember (loadedConfig : JsonValue) (name : string)
  : Result (option JsonValue) :=
  match loadedConfig with
  | JsonNull => Throw (TypeError name)
  | JsonObject members => Return (lookupLast members name)
  | JsonBoolean _ | JsonNumber _ | JsonString _ | JsonArray _ => Return None
  end.

(** [ToBoolean], the test of [if (...)]: [undefined], [null], [false],
    [+0], [-0], [NaN] and the empty string are falsy. *)
Definition ToBoolean (value : option JsonValue) : bool :=
  match value with
  | None => false
  | Some JsonNull => false
  | Some (JsonBoolean b) => b
  | Some (JsonNumber x) =>
      negb (PrimFloat.eqb x 0%float || negb (PrimFloat.eqb x x))
  | Some (JsonString s) => negb (String.eqb s "")
  | Some (JsonArray _) => true
  | Some (JsonObject _) => true
  end.

(** The module-level [config] object. After [loadConfig] a field holds
    whatever the file gave, so a field is a JSON value. *)
Record Config : Type := mkConfig {
  udpPort : JsonValue;
  serialPort : JsonValue;
  baudRate : JsonValue
}.

Definition defaultConfig : Config :=
  mkConfig (JsonNumber 52381%float) (JsonString "/dev/ttyUSB0")
    (JsonNumber 9600%float).

(** [if (loadedConfig.name) config.name = loadedConfig.name] once the
    member was read. *)
Definition assignIfTruthy (loaded : option JsonValue) (current : JsonValue)
  : JsonValue :=
  if ToBoolean loaded
  then match loaded with
       | Some value => value
       | None => current
       end
  else current.

(** [loadConfig()]. [parsed] is what [JSON.parse(readFileSync(configFile)
    .toString())] gave, [None] when either call threw. The result is
    [config] afterwards and the lines logged. An exception inside the [try]
    block keeps the assignments made before it. *)
Definition loadConfig (parsed : option JsonValue) (config : Config)
  : Config * list string :=
  let failed (c : Config) := (c, ["Failed to load config from file"%string]) in
  match parsed with
  | None => failed config
  | Some loadedConfig =>
      match getMember loadedConfig "udpPort" with
      | Throw _ => failed config
      | Return loadedUdpPort =>
          let config1 :=
            mkConfig (assignIfTruthy loadedUdpPort (udpPort config))
              (serialPort config) (baudRate config) in
          match getMember loadedConfig "serialPort" with
          | Throw _ => failed config1
          | Return loadedSerialPort =>
              let config2 :=
                mkConfig (udpPort config1)
                  (assignIfTruthy loadedSerialPort (serialPort config1))
                  (baudRate config1) in
              match getMember loadedConfig "baudRate" with
              | Throw _ => failed config2
              | Return loadedBaudRate =>
                  (mkConfig (udpPort config2) (serialPort config2)
                     (assignIfTruthy loadedBaudRate (baudRate config2)),
                   [])
              end
          end
      end
  end.

(** The text [{"udpPort": 0, "baudRate": "fast", "baudRate": 19200}]. *)
Definition exampleConfigFile : JsonValue :=
  JsonObject
    [("udpPort"%string, JsonNumber 0%float);
     ("baudRate"%string, JsonString "fast");
     ("baudRate"%string, JsonNumber 19200%float)].

(** ** Vocabulary of the further properties *)

(** One byte as two upper-case hexadecimal digits. *)
Definition byteToHex (b : byte) : string :=
  String (toUpperCase (hexDigit (Byte.to_N b / 16)))
    (String (toUpperCase (hexDigit (Byte.to_N b mod 16))) EmptyString).

(** The value of an upper-case hexadecimal digit. *)
Definition hexDigitValue (c : ascii) : option N :=
  let n := N.of_nat (nat_of_ascii c) in
  if ((48 <=? n) && (n <=? 57))%N then Some (n - 48)%N
  else if ((65 <=? n) && (n <=? 70))%N then Some (n - 55)%N
  else None.

(** Reading the two digits of [byteToHex] back. *)
Definition hexToByte (s : string) : option byte :=
  match s with
  | String hi (String lo EmptyString) =>
      match hexDigitValue hi, hexDigitValue lo with
      | Some h, Some l => Byte.of_N (h * 16 + l)
      | _, _ => None
      end
  | _ => None
  end.

(** A datagram [fromBuffer] returns a packet for. *)
Definition isDecodable (msgBuffer : Buffer) : bool :=
  match fromBuffer msgBuffer with
  | Return _ => true
  | Throw _ => false
  end.

(** The serial frames among the events, in order. *)
Definition frames (evs : list Event) : list Buffer :=
  flat_map (fun ev => match ev with data f => [f] | _ => [] end) evs.

(** The bytes after the header of every datagram that decodes, in order. *)
Definition decodablePayloads (evs : list Event) : list Buffer :=
  flat_map
    (fun ev =>
       match ev with
       | message msgBuffer _ =>
           if isDecodable msgBuffer then [JS.subarray msgBuffer 8] else []
       | data _ => []
       end) evs.

(** Big-endian value of a buffer. *)
Definition bigEndian (buffer : Buffer) : Z :=
  fold_left (fun acc b => acc * 256 + JS.byteValue b) buffer 0.

(** The three variables are all [null], or all set with a 32-bit sequence
    number and a category that is one of the six members. *)
Definition isCoherent (s : Session) : bool :=
  match currentSequenceNumber s, currentRemoteInfo s, currentPacketType s with
  | None, None, None => true
  | Some n, Some _, Some t =>
      (0 <=? n) && (n <? 2 ^ 32) && ViscaIpPacketType.isMember t
  | _, _, _ => false
  end.

(** Every datagram that decodes comes from a port [socket.send] accepts. *)
Definition sendersSendable (evs : list Event) : bool :=
  forallb
    (fun ev =>
       match ev with
       | message msgBuffer remoteInfo =>
           negb (isDecodable msgBuffer) || isValidPort (port remoteInfo)
       | data _ => true
       end) evs.


(** A datagram that does not decode. *)
Definition isUndecodableMessage (ev : Event) : bool :=
  match ev with
  | message msgBuffer _ => negb (isDecodable msgBuffer)
  | data _ => false
  end.

(** A serial frame of 65536 bytes, the last one the terminator. *)
Definition oversizeFrame : Buffer := repeat x00 (Z.to_nat 65535) ++ [xff].

(** ** The decoder of the older revision *)

Module LegacyCodec.

(** The older [fromBuffer]: the same body over the older [_parseType]. *)
Definition fromBuffer (buffer : Buffer) : Result ViscaIpPacket :=
  type <- (value <- readUInt16BE buffer 0 ;; Legacy._parseType value) ;;
  length <- readUInt16BE buffer 2 ;;
  sequenceNumber <- readUInt32BE buffer 4 ;;
  let payload := JS.subarray buffer 8 in
  if negb (JS.length payload =? length)
  then Throw (LengthMismatch length (JS.length payload))
  else Return (mkViscaIpPacket type length (Some sequenceNumber) payload).

End LegacyCodec.

(** * Properties *)

(** ** Bytes and big-endian fields *)

Lemma byteValue_range (b : byte) : 0 <= JS.byteValue b < 256.
Proof.
  unfold JS.byteValue.
  pose proof (Byte.to_N_bounded b) as H.
  lia.
Qed.

Lemma byteValue_ToUint8 (x : Z) : JS.byteValue (JS.ToUint8 x) = x mod 256.
Proof.
  unfold JS.byteValue, JS.ToUint8.
  assert (Hr : 0 <= x mod 256 < 256) by (apply Z.mod_pos_bound; lia).
  destruct (Byte.of_N (Z.to_N (x mod 256))) as [b|] eqn:E.
  - apply Byte.to_of_N in E. rewrite E. lia.
  - apply Byte.of_N_None_iff in E. lia.
Qed.

Lemma ushr_div (x n : Z) : 0 <= n -> JS.ushr x n = (x mod 2 ^ 32) / 2 ^ n.
Proof.
  intros Hn. unfold JS.ushr, JS.ToUint32. now rewrite Z.shiftr_div_pow2.
Qed.

(** Spreading a buffer into [Buffer.from] gives the same bytes back. *)
Lemma Buffer_from_spread (buffer : Buffer) :
  JS.Buffer_from (JS.spread buffer) = buffer.
Proof.
  unfold JS.Buffer_from, JS.spread. rewrite map_map.
  rewrite <- (map_id buffer) at 2. apply map_ext.
  intros b. unfold JS.ToUint8, JS.byteValue.
  pose proof (Byte.to_N_bounded b) as Hb.
  rewrite Z.mod_small by lia.
  rewrite N2Z.id. now rewrite Byte.of_to_N.
Qed.

(** A 16-bit value is recovered from its two big-endian bytes. *)
Lemma uint16_bytes (x : Z) :
  0 <= x < 2 ^ 16 ->
  (JS.ushr x 8 mod 256) * 2 ^ 8 + x mod 256 = x.
Proof.
  intros Hx. rewrite ushr_div by lia.
  change (2 ^ 32) with 4294967296. change (2 ^ 8) with 256.
  change (2 ^ 16) with 65536 in Hx.
  rewrite (Z.mod_small x 4294967296) by lia.
  Z.div_mod_to_equations. lia.
Qed.

(** A 32-bit value is recovered from its four big-endian bytes. *)
Lemma uint32_bytes (x : Z) :
  0 <= x < 2 ^ 32 ->
  (JS.ushr x 24 mod 256) * 2 ^ 24 + (JS.ushr x 16 mod 256) * 2 ^ 16
  + (JS.ushr x 8 mod 256) * 2 ^ 8 + x mod 256 = x.
Proof.
  intros Hx. rewrite !ushr_div by lia.
  change (2 ^ 32) with 4294967296 in *. change (2 ^ 8) with 256.
  change (2 ^ 16) with 65536. change (2 ^ 24) with 16777216.
  rewrite (Z.mod_small x 4294967296) by lia.
  Z.div_mod_to_equations. lia.
Qed.

(** ** What the buffer reads return *)

Lemma readUInt16BE_Return (buffer : Buffer) (offset : nat) :
  (offset + 2 <= List.length buffer)%nat ->
  exists first last,
    nth_error buffer offset = Some first /\
    nth_error buffer (offset + 1) = Some last /\
    readUInt16BE buffer offset
    = Return (JS.byteValue first * 2 ^ 8 + JS.byteValue last).
Proof.
  intros Hlen. unfold readUInt16BE.
  destruct (nth_error buffer offset) as [first|] eqn:E0.
  2:{ apply nth_error_None in E0. lia. }
  destruct (nth_error buffer (offset + 1)) as [last|] eqn:E1.
  2:{ apply nth_error_None in E1. lia. }
  now exists first, last.
Qed.

Lemma readUInt16BE_Throw (buffer : Buffer) (offset : nat) :
  (List.length buffer < offset + 2)%nat ->
  readUInt16BE buffer offset = Throw (RangeError offset).
Proof.
  intros Hlen. unfold readUInt16BE.
  assert (E1 : nth_error buffer (offset + 1) = None)
    by (apply nth_error_None; lia).
  rewrite E1. now destruct (nth_error buffer offset).
Qed.

Lemma readUInt32BE_Return (buffer : Buffer) (offset : nat) :
  (offset + 4 <= List.length buffer)%nat ->
  exists value, readUInt32BE buffer offset = Return value.
Proof.
  intros Hlen. unfold readUInt32BE.
  destruct (nth_error buffer offset) as [first|] eqn:E0.
  2:{ apply nth_error_None in E0. lia. }
  destruct (nth_error buffer (offset + 3)) as [last|] eqn:E3.
  2:{ apply nth_error_None in E3. lia. }
  eauto.
Qed.

Lemma readUInt32BE_Throw (buffer : Buffer) (offset : nat) :
  (List.length buffer < offset + 4)%nat ->
  readUInt32BE buffer offset = Throw (RangeError offset).
Proof.
  intros Hlen. unfold readUInt32BE.
  assert (E3 : nth_error buffer (offset + 3) = None)
    by (apply nth_error_None; lia).
  rewrite E3. now destruct (nth_error buffer offset).
Qed.

(** ** [_parseType] accepts the six members and nothing else *)

Lemma _parseType_isMember (value : Z) :
  _parseType value
  = if ViscaIpPacketType.isMember value
    then Return value
    else Throw (UnknownCategory value).
Proof.
  unfold _parseType, ViscaIpPacketType.isMember, ViscaIpPacketType.members.
  cbn [existsb]. rewrite orb_false_r.
  now rewrite !orb_assoc.
Qed.

(** The header written by [toBuffer], field by field. *)
Lemma toBuffer_header (p : ViscaIpPacket) :
  exists b0 b1 b2 b3 b4 b5 b6 b7,
    toBuffer p = b0 :: b1 :: b2 :: b3 :: b4 :: b5 :: b6 :: b7 :: payload p /\
    JS.byteValue b0 = JS.ushr (type p) 8 mod 256 /\
    JS.byteValue b1 = type p mod 256 /\
    JS.byteValue b2 = JS.ushr (length p) 8 mod 256 /\
    JS.byteValue b3 = length p mod 256 /\
    JS.byteValue b4 = JS.ushr (JS.ToNumber (sequenceNumber p)) 24 mod 256 /\
    JS.byteValue b5 = JS.ushr (JS.ToNumber (sequenceNumber p)) 16 mod 256 /\
    JS.byteValue b6 = JS.ushr (JS.ToNumber (sequenceNumber p)) 8 mod 256 /\
    JS.byteValue b7 = JS.ToNumber (sequenceNumber p) mod 256.
Proof.
  unfold toBuffer, JS.Buffer_from. rewrite map_app.
  fold (JS.Buffer_from (JS.spread (payload p))).
  rewrite Buffer_from_spread. cbn [map app].
  do 8 eexists. split; [reflexivity|].
  repeat split; apply byteValue_ToUint8.
Qed.

Lemma isMember_range (value : Z) :
  ViscaIpPacketType.isMember value = true -> 0 <= value < 2 ^ 16.
Proof.
  unfold ViscaIpPacketType.isMember, ViscaIpPacketType.members.
  cbn [existsb]. rewrite !orb_true_iff, !Z.eqb_eq.
  unfold ViscaIpPacketType.command, ViscaIpPacketType.inquiry,
    ViscaIpPacketType.reply, ViscaIpPacketType.deviceSettingCommand,
    ViscaIpPacketType.controlCommand, ViscaIpPacketType.controlReply.
  change (2 ^ 16) with 65536.
  intros H. lia.
Qed.

(** ** Decoding: what [fromBuffer] does on a buffer with a full header *)

(** On a buffer of at least eight bytes all three reads succeed, and the
    result is decided by the category check first and the length check
    second. *)
Lemma fromBuffer_full_header (buffer : Buffer) :
  (8 <= List.length buffer)%nat ->
  exists value declared sequence,
    readUInt16BE buffer 0 = Return value /\
    readUInt16BE buffer 2 = Return declared /\
    readUInt32BE buffer 4 = Return sequence /\
    fromBuffer buffer
    = if ViscaIpPacketType.isMember value
      then if JS.length (JS.subarray buffer 8) =? declared
           then Return (mkViscaIpPacket value declared (Some sequence)
                          (JS.subarray buffer 8))
           else Throw (LengthMismatch declared
                         (JS.length (JS.subarray buffer 8)))
      else Throw (UnknownCategory value).
Proof.
  intros Hlen.
  destruct (readUInt16BE_Return buffer 0) as (f0 & l0 & _ & _ & E0); [lia|].
  destruct (readUInt16BE_Return buffer 2) as (f2 & l2 & _ & _ & E2); [lia|].
  destruct (readUInt32BE_Return buffer 4) as (sequence & E4); [lia|].
  do 3 eexists. repeat split; try eassumption.
  unfold fromBuffer. rewrite E0. cbn [bind].
  rewrite _parseType_isMember.
  destruct (ViscaIpPacketType.isMember _); cbn [bind]; [|reflexivity].
  rewrite E2, E4. cbn [bind].
  now destruct (JS.length (JS.subarray buffer 8) =? _).
Qed.

(** Whenever [fromBuffer] returns a packet, its payload is every byte after
    the header, neither cut nor extended, and its length field is the
    number of those bytes. *)
Lemma fromBuffer_Return_inv (buffer : Buffer) (p : ViscaIpPacket) :
  fromBuffer buffer = Return p ->
  payload p = JS.subarray buffer 8 /\
  length p = JS.length (payload p) /\
  readUInt16BE buffer 0 = Return (type p) /\
  ViscaIpPacketType.isMember (type p) = true /\
  readUInt16BE buffer 2 = Return (length p) /\
  exists n, sequenceNumber p = Some n /\ readUInt32BE buffer 4 = Return n.
Proof.
  unfold fromBuffer.
  destruct (readUInt16BE buffer 0) as [value|e] eqn:E0; cbn [bind];
    [|discriminate].
  rewrite _parseType_isMember.
  destruct (ViscaIpPacketType.isMember value) eqn:Em; cbn [bind];
    [|discriminate].
  destruct (readUInt16BE buffer 2) as [declared|e] eqn:E2; cbn [bind];
    [|discriminate].
  destruct (readUInt32BE buffer 4) as [n|e] eqn:E4; cbn [bind];
    [|discriminate].
  destruct (JS.length (JS.subarray buffer 8) =? declared) eqn:El;
    cbn [negb]; [|discriminate].
  intros H. injection H as <-. cbn [payload length type sequenceNumber].
  apply Z.eqb_eq in El.
  repeat split; auto. eauto.
Qed.

Lemma JS_length_nonneg (buffer : Buffer) : 0 <= JS.length buffer.
Proof. unfold JS.length. lia. Qed.

(** What [fromBuffer] reads back from the buffer [toBuffer] wrote, provided
    the category and the length field fit 16 bits and the sequence number
    fits 32 bits. *)
Lemma fromBuffer_toBuffer_fields (p : ViscaIpPacket) :
  0 <= type p < 2 ^ 16 ->
  0 <= length p < 2 ^ 16 ->
  0 <= JS.ToNumber (sequenceNumber p) < 2 ^ 32 ->
  readUInt16BE (toBuffer p) 0 = Return (type p) /\
  readUInt16BE (toBuffer p) 2 = Return (length p) /\
  readUInt32BE (toBuffer p) 4 = Return (JS.ToNumber (sequenceNumber p)) /\
  JS.subarray (toBuffer p) 8 = payload p.
Proof.
  intros Ht Hl Hs.
  destruct (toBuffer_header p)
    as (b0 & b1 & b2 & b3 & b4 & b5 & b6 & b7 & -> &
        H0 & H1 & H2 & H3 & H4 & H5 & H6 & H7).
  unfold readUInt16BE, readUInt32BE, JS.subarray.
  cbn [nth_error nth Nat.add skipn].
  rewrite H0, H1, H2, H3, H4, H5, H6, H7.
  rewrite (uint16_bytes _ Ht), (uint16_bytes _ Hl), (uint32_bytes _ Hs).
  repeat split.
Qed.

(** C2. Round trip: for every valid packet [p] (category one of the six
    members, sequence number an unsigned 32-bit integer, length field equal
    to the number of payload bytes, at most 65535 of them), decoding the
    encoding of [p] succeeds and gives [p] back, equal in all four fields. *)
Theorem fromBuffer_toBuffer (p : ViscaIpPacket) :
  isValidPacket p = true ->
  fromBuffer (toBuffer p) = Return p.
Proof.
  unfold isValidPacket. rewrite !andb_true_iff.
  intros [[[Hm Hs] Hl] Hmax].
  destruct p as [ty len [n|] pl]; cbn [type length sequenceNumber payload] in *;
    [|discriminate].
  apply andb_true_iff in Hs. destruct Hs as [Hn0 Hn1].
  apply Z.leb_le in Hn0. apply Z.ltb_lt in Hn1.
  apply Z.eqb_eq in Hl. apply Z.leb_le in Hmax.
  pose proof (isMember_range _ Hm) as Hty.
  pose proof (JS_length_nonneg pl) as Hpl.
  destruct (fromBuffer_toBuffer_fields (mkViscaIpPacket ty len (Some n) pl))
    as (E0 & E2 & E4 & E8); cbn [type length sequenceNumber payload JS.ToNumber];
    try (change (2 ^ 16) with 65536; lia); try lia.
  cbn [type length sequenceNumber payload JS.ToNumber] in *.
  unfold fromBuffer. rewrite E0. cbn [bind].
  rewrite _parseType_isMember, Hm. cbn [bind].
  rewrite E2, E4. cbn [bind]. rewrite E8.
  subst len. rewrite Z.eqb_refl. reflexivity.
Qed.

Lemma fromBuffer_toBuffer_witness :
  isValidPacket examplePacket = true /\
  fromBuffer (toBuffer examplePacket) = Return examplePacket.
Proof.
  split; [reflexivity | apply (fromBuffer_toBuffer examplePacket); reflexivity].
Defined.

(** ** Decoding failures *)

(** C6. Length invariant: on a buffer of at least eight bytes whose first
    two bytes read as one of the six members, [fromBuffer] throws
    [LengthMismatch declared actual] whenever the declared length (bytes
    2-3) differs from the number of bytes after the eight-byte header,
    whichever of the two is larger; no packet with a cut or padded payload
    is returned. *)
Theorem fromBuffer_LengthMismatch (buffer : Buffer) (value declared : Z) :
  (8 <= List.length buffer)%nat ->
  readUInt16BE buffer 0 = Return value ->
  ViscaIpPacketType.isMember value = true ->
  readUInt16BE buffer 2 = Return declared ->
  declared <> Z.of_nat (List.length buffer - 8) ->
  fromBuffer buffer
  = Throw (LengthMismatch declared (Z.of_nat (List.length buffer - 8))) /\
  forall p, fromBuffer buffer <> Return p.
Proof.
  intros Hlen E0 Hm E2 Hne.
  destruct (fromBuffer_full_header buffer Hlen)
    as (value' & declared' & sequence & E0' & E2' & _ & ->).
  rewrite E0 in E0'. injection E0' as <-.
  rewrite E2 in E2'. injection E2' as <-.
  rewrite Hm. unfold JS.length, JS.subarray. rewrite length_skipn.
  destruct (Z.of_nat (List.length buffer - 8) =? declared) eqn:El;
    [apply Z.eqb_eq in El; congruence | split; [reflexivity | discriminate]].
Qed.

Lemma fromBuffer_LengthMismatch_witness :
  (fromBuffer declaredTooLarge = Throw (LengthMismatch 3 1) /\
   forall p, fromBuffer declaredTooLarge <> Return p) /\
  (fromBuffer declaredTooSmall = Throw (LengthMismatch 0 2) /\
   forall p, fromBuffer declaredTooSmall <> Return p).
Proof.
  split.
  - apply (fromBuffer_LengthMismatch declaredTooLarge 0x0100 3);
      [ cbn; lia | reflexivity | reflexivity | reflexivity | cbn; lia ].
  - apply (fromBuffer_LengthMismatch declaredTooSmall 0x0201 0);
      [ cbn; lia | reflexivity | reflexivity | reflexivity | cbn; lia ].
Defined.

(** C7. Unknown category rejection: on a buffer of at least eight bytes
    whose first two bytes read as a value outside the six members,
    [fromBuffer] throws [UnknownCategory value], whatever the other bytes
    are. *)
Theorem fromBuffer_UnknownCategory (buffer : Buffer) (value : Z) :
  (8 <= List.length buffer)%nat ->
  readUInt16BE buffer 0 = Return value ->
  ViscaIpPacketType.isMember value = false ->
  fromBuffer buffer = Throw (UnknownCategory value).
Proof.
  intros Hlen E0 Hm.
  destruct (fromBuffer_full_header buffer Hlen)
    as (value' & declared & sequence & E0' & _ & _ & ->).
  rewrite E0 in E0'. injection E0' as <-.
  now rewrite Hm.
Qed.

Lemma fromBuffer_UnknownCategory_witness :
  fromBuffer category0000 = Throw (UnknownCategory 0x0000) /\
  fromBuffer categoryFFFF = Throw (UnknownCategory 0xFFFF).
Proof.
  split.
  - apply (fromBuffer_UnknownCategory category0000 0x0000);
      [ cbn; lia | reflexivity | reflexivity ].
  - apply (fromBuffer_UnknownCategory categoryFFFF 0xFFFF);
      [ cbn; lia | reflexivity | reflexivity ].
Defined.

(** C10. The category check comes before the length check: on a buffer of
    at least eight bytes with an unknown category and a declared length
    that differs from the number of bytes after the header, [fromBuffer]
    throws [UnknownCategory], not [LengthMismatch]. *)
Theorem fromBuffer_category_before_length
    (buffer : Buffer) (value declared : Z) :
  (8 <= List.length buffer)%nat ->
  readUInt16BE buffer 0 = Return value ->
  ViscaIpPacketType.isMember value = false ->
  readUInt16BE buffer 2 = Return declared ->
  declared <> Z.of_nat (List.length buffer - 8) ->
  fromBuffer buffer = Throw (UnknownCategory value) /\
  forall d a, fromBuffer buffer <> Throw (LengthMismatch d a).
Proof.
  intros Hlen E0 Hm _ _.
  destruct (fromBuffer_full_header buffer Hlen)
    as (value' & declared' & sequence & E0' & _ & _ & ->).
  rewrite E0 in E0'. injection E0' as <-.
  rewrite Hm. split; [reflexivity | discriminate].
Qed.

Lemma fromBuffer_category_before_length_witness :
  fromBuffer unknownAndMismatched = Throw (UnknownCategory 0x0300) /\
  forall d a, fromBuffer unknownAndMismatched <> Throw (LengthMismatch d a).
Proof.
  apply (fromBuffer_category_before_length unknownAndMismatched 0x0300 5);
    [ cbn; lia | reflexivity | reflexivity | reflexivity | cbn; lia ].
Defined.

(** ** Buffers shorter than the header *)

(** C8, as the code has it. For every buffer shorter than eight bytes
    [fromBuffer] throws and returns no packet. The exception is
    [UnknownCategory] when the first two bytes are present and are not one
    of the six members; otherwise it is the [RangeError] of the buffer read
    that ran past the end; it is never [LengthMismatch]. *)
Theorem fromBuffer_short (buffer : Buffer) :
  (List.length buffer < 8)%nat ->
  fromBuffer buffer = Throw (shortBufferException buffer) /\
  (forall p, fromBuffer buffer <> Return p) /\
  (forall d a, fromBuffer buffer <> Throw (LengthMismatch d a)).
Proof.
  intros Hlen.
  assert (E : fromBuffer buffer = Throw (shortBufferException buffer)).
  { unfold fromBuffer, shortBufferException.
    destruct (readUInt16BE buffer 0) as [value|e] eqn:E0; cbn [bind].
    - rewrite _parseType_isMember.
      destruct (ViscaIpPacketType.isMember value); cbn [bind];
        [|reflexivity].
      destruct (List.length buffer <? 4)%nat eqn:E4.
      + apply Nat.ltb_lt in E4.
        rewrite readUInt16BE_Throw by lia. reflexivity.
      + apply Nat.ltb_ge in E4.
        destruct (readUInt16BE_Return buffer 2) as (f & l & _ & _ & ->);
          [lia|]. cbn [bind].
        rewrite readUInt32BE_Throw by lia. reflexivity.
    - unfold readUInt16BE in E0.
      destruct (nth_error buffer 0), (nth_error buffer (0 + 1));
        try discriminate; injection E0 as <-; reflexivity. }
  rewrite E. repeat split; try discriminate.
  intros d a. unfold shortBufferException.
  destruct (readUInt16BE buffer 0) as [value|e]; [|discriminate].
  destruct (ViscaIpPacketType.isMember value); [|discriminate].
  destruct (List.length buffer <? 4)%nat; discriminate.
Qed.

Lemma fromBuffer_short_witness :
  fromBuffer shortKnown = Throw (RangeError 4) /\
  (forall p, fromBuffer shortKnown <> Return p) /\
  (forall d a, fromBuffer shortKnown <> Throw (LengthMismatch d a)).
Proof.
  apply (fromBuffer_short shortKnown). cbn. lia.
Defined.

(** C8, as the claim words it, fails on the empty datagram: [fromBuffer]
    throws there, but the exception is the buffer's [RangeError], which is
    neither [UnknownCategory] nor [LengthMismatch]. *)
Lemma fromBuffer_short_not_MalformedPacket :
  (List.length (@nil byte) < 8)%nat /\
  fromBuffer [] = Throw (RangeError 0) /\
  ~ (exists e, fromBuffer [] = Throw e /\ isMalformedPacket e = true).
Proof.
  split; [cbn; lia|]. split; [reflexivity|].
  intros (e & He & Hm). cbn in He. injection He as <-. discriminate.
Qed.

(** ** The two revisions of [_parseType] *)

(** C9. The older revision's [_parseType] maps the reply code [0x0111] onto
    [command], the current one maps it onto [reply] (itself). On every
    other value the two either return the same member or the older one
    throws; so the two revisions are not the same function, and the only
    value both accept with different results is [0x0111]. *)
Theorem parseType_revisions_differ :
  Legacy._parseType 0x0111 = Return ViscaIpPacketType.command /\
  _parseType 0x0111 = Return ViscaIpPacketType.reply /\
  (forall value, value <> 0x0111 ->
     (exists t, Legacy._parseType value = Return t /\
                _parseType value = Return t) \/
     (exists e, Legacy._parseType value = Throw e)) /\
  (forall value a b,
     Legacy._parseType value = Return a ->
     _parseType value = Return b ->
     (a <> b <-> value = 0x0111)) /\
  Legacy._parseType <> _parseType.
Proof.
  split; [reflexivity|]. split; [reflexivity|].
  assert (Hcases : forall value,
             value = 0x0100 \/ value = 0x0110 \/ value = 0x0111 \/
             Legacy._parseType value = Throw (UnknownCategory value)).
  { intros value. unfold Legacy._parseType,
      Legacy.ViscaIpPacketType.command, Legacy.ViscaIpPacketType.inquiry,
      Legacy.ViscaIpPacketType.reply.
    destruct (value =? 256) eqn:E1; [apply Z.eqb_eq in E1; auto|].
    destruct (value =? 272) eqn:E2; [apply Z.eqb_eq in E2; auto|].
    destruct (value =? 273) eqn:E3; [apply Z.eqb_eq in E3; auto|].
    auto. }
  split; [|split].
  - intros value Hne.
    destruct (Hcases value) as [-> | [-> | [-> | H]]].
    + left. now exists 0x0100.
    + left. now exists 0x0110.
    + congruence.
    + right. eauto.
  - intros value a b Ha Hb.
    destruct (Hcases value) as [-> | [-> | [-> | H]]].
    + cbv in Ha, Hb. injection Ha as <-. injection Hb as <-.
      split; [congruence | discriminate].
    + cbv in Ha, Hb. injection Ha as <-. injection Hb as <-.
      split; [congruence | discriminate].
    + cbv in Ha, Hb. injection Ha as <-. injection Hb as <-.
      split; [reflexivity | discriminate].
    + congruence.
  - intros Heq.
    assert (H : Legacy._parseType 0x0111 = _parseType 0x0111)
      by now rewrite Heq.
    discriminate H.
Qed.

(** ** The handlers, run by run *)

(** Sequencing after a handler that returned. *)
Lemma hbind_Return {A B : Type} (h : Handler A) (k : A -> Handler B)
    (s s' : Session) (es : list Effect) (a : A) :
  h s = mkRun s' es (Return a) ->
  hbind h k s
  = mkRun (session (k a s')) (es ++ effects (k a s')) (outcome (k a s')).
Proof.
  intros E. unfold hbind. rewrite E. reflexivity.
Qed.

(** Sequencing after a handler that threw: the rest does not run. *)
Lemma hbind_Throw {A B : Type} (h : Handler A) (k : A -> Handler B)
    (s s' : Session) (es : list Effect) (e : Exception) :
  h s = mkRun s' es (Throw e) ->
  hbind h k s = mkRun s' es (Throw e).
Proof.
  intros E. unfold hbind. rewrite E. reflexivity.
Qed.

Lemma onMessage_Return (msgBuffer : Buffer) (remoteInfo : RemoteInfo)
    (s : Session) (receivedPacket : ViscaIpPacket) :
  fromBuffer msgBuffer = Return receivedPacket ->
  onMessage msgBuffer remoteInfo s
  = mkRun
      (mkSession (sequenceNumber receivedPacket) (Some remoteInfo)
         (Some (type receivedPacket)))
      [console_log (SocketRECV (toHexString receivedPacket));
       console_log (SerialSEND (bufferToHexString (payload receivedPacket)));
       serialPort_write (payload receivedPacket)]
      (Return tt).
Proof.
  intros E. unfold onMessage, try_catch, hbind, call. cbn [outcome session effects].
  rewrite E. reflexivity.
Qed.

Lemma onMessage_Throw (msgBuffer : Buffer) (remoteInfo : RemoteInfo)
    (s : Session) (e : Exception) :
  fromBuffer msgBuffer = Throw e ->
  onMessage msgBuffer remoteInfo s
  = mkRun s [console_log (SocketRECVError e)] (Return tt).
Proof.
  intros E. unfold onMessage, try_catch, hbind, call. cbn [outcome session effects].
  rewrite E. reflexivity.
Qed.

Lemma onData_peer (responseData : Buffer) (s : Session)
    (remoteInfo : RemoteInfo) :
  currentRemoteInfo s = Some remoteInfo ->
  isValidPort (port remoteInfo) = true ->
  let responsePacket :=
    fromPayload (responsePacketTypeFor (currentPacketType s))
      (currentSequenceNumber s) responseData in
  onData responseData s
  = mkRun s
      [console_log (SerialRECV (bufferToHexString responseData));
       console_log (SocketSEND (toHexString responsePacket));
       socket_send (toBuffer responsePacket) (port remoteInfo)
         (address remoteInfo)]
      (Return tt).
Proof.
  intros E Hp. unfold onData, hbind, read, perform, property, socketSend,
    responsePacketTypeFor.
  cbn [outcome session effects]. rewrite E. cbn [outcome session effects hret].
  rewrite Hp. reflexivity.
Qed.

Lemma onData_bad_port (responseData : Buffer) (s : Session)
    (remoteInfo : RemoteInfo) :
  currentRemoteInfo s = Some remoteInfo ->
  isValidPort (port remoteInfo) = false ->
  let responsePacket :=
    fromPayload (responsePacketTypeFor (currentPacketType s))
      (currentSequenceNumber s) responseData in
  onData responseData s
  = mkRun s
      [console_log (SerialRECV (bufferToHexString responseData));
       console_log (SocketSEND (toHexString responsePacket))]
      (Throw (ERR_SOCKET_BAD_PORT (port remoteInfo))).
Proof.
  intros E Hp. unfold onData, hbind, read, perform, property, socketSend,
    call, responsePacketTypeFor.
  cbn [outcome session effects]. rewrite E. cbn [outcome session effects hret].
  rewrite Hp. reflexivity.
Qed.

Lemma isValidPort_true (p : Z) : 0 < p < 65536 -> isValidPort p = true.
Proof.
  intros [H0 H1]. unfold isValidPort.
  apply Z.ltb_lt in H0. apply Z.ltb_lt in H1. now rewrite H0, H1.
Qed.

Lemma onData_no_peer (responseData : Buffer) (s : Session) :
  currentRemoteInfo s = None ->
  let responsePacket :=
    fromPayload (responsePacketTypeFor (currentPacketType s))
      (currentSequenceNumber s) responseData in
  onData responseData s
  = mkRun s
      [console_log (SerialRECV (bufferToHexString responseData));
       console_log (SocketSEND (toHexString responsePacket))]
      (Throw (TypeError "port")).
Proof.
  intros E. unfold onData, hbind, read, perform, property, call,
    responsePacketTypeFor.
  cbn [outcome session effects]. rewrite E. reflexivity.
Qed.

(** ** The relay *)

(** C5. A datagram that fails to decode is logged and discarded: the
    handler returns normally, sends nothing on the socket, writes nothing to
    the serial port, and leaves [currentSequenceNumber], [currentRemoteInfo]
    and [currentPacketType] as they were. This holds for every exception
    [fromBuffer] throws, [UnknownCategory] and [LengthMismatch] among
    them. *)
Theorem onMessage_malformed (msgBuffer : Buffer) (remoteInfo : RemoteInfo)
    (s : Session) (e : Exception) :
  fromBuffer msgBuffer = Throw e ->
  let r := onMessage msgBuffer remoteInfo s in
  session r = s /\
  effects r = [console_log (SocketRECVError e)] /\
  networkSends (effects r) = [] /\
  serialWrites (effects r) = [] /\
  outcome r = Return tt.
Proof.
  intros E r. subst r. rewrite (onMessage_Throw _ _ _ _ E).
  cbn [session effects outcome]. repeat split.
Qed.

Lemma onMessage_malformed_witness :
  (let r := onMessage declaredTooLarge peerB sessionAfterInquiry in
   session r = sessionAfterInquiry /\
   effects r = [console_log (SocketRECVError (LengthMismatch 3 1))] /\
   networkSends (effects r) = [] /\
   serialWrites (effects r) = [] /\
   outcome r = Return tt) /\
  (let r := onMessage categoryFFFF peerB sessionAfterInquiry in
   session r = sessionAfterInquiry /\
   effects r = [console_log (SocketRECVError (UnknownCategory 0xFFFF))] /\
   networkSends (effects r) = [] /\
   serialWrites (effects r) = [] /\
   outcome r = Return tt).
Proof.
  split.
  - apply (onMessage_malformed declaredTooLarge peerB sessionAfterInquiry
             (LengthMismatch 3 1)). reflexivity.
  - apply (onMessage_malformed categoryFFFF peerB sessionAfterInquiry
             (UnknownCategory 0xFFFF)). reflexivity.
Defined.





(** C1, at the failing input. A serial frame handled while the three
    variables are still [null] is logged, and a reply packet (category
    [reply], sequence number [null]) is built and logged as well; then
    reading [currentRemoteInfo.port] throws a [TypeError]. [socket.send] is
    not reached, so nothing is sent, but the exception leaves the handler
    uncaught instead of the frame being dropped: the events that follow are
    not handled. *)
Theorem onData_orphan (responseData : Buffer) (rest : list Event) :
  let r := onData responseData initialSession in
  effects r
  = [console_log (SerialRECV (bufferToHexString responseData));
     console_log
       (SocketSEND
          (toHexString
             (mkViscaIpPacket ViscaIpPacketType.reply
                (JS.length responseData) None responseData)))] /\
  networkSends (effects r) = [] /\
  outcome r = Throw (TypeError "port") /\
  keepsRunning r = false /\
  runEvents (data responseData :: rest) initialSession = r.
Proof.
  intros r.
  assert (Er : r = mkRun initialSession
             [console_log (SerialRECV (bufferToHexString responseData));
              console_log
                (SocketSEND
                   (toHexString
                      (mkViscaIpPacket ViscaIpPacketType.reply
                         (JS.length responseData) None responseData)))]
             (Throw (TypeError "port"))).
  { subst r. apply (onData_no_peer responseData initialSession). reflexivity. }
  split; [now rewrite Er|]. split; [now rewrite Er|].
  split; [now rewrite Er|]. split; [now rewrite Er|].
  cbn [runEvents dispatch].
  apply hbind_Throw. exact Er.
Qed.

(** * Further properties *)

(** ** The codec beyond valid packets *)

Lemma ToUint8_byteValue (x : Z) (b : byte) :
  x mod 256 = JS.byteValue b -> JS.ToUint8 x = b.
Proof.
  intros H. unfold JS.ToUint8. rewrite H. unfold JS.byteValue.
  rewrite N2Z.id. now rewrite Byte.of_to_N.
Qed.

Lemma toBuffer_length (p : ViscaIpPacket) :
  List.length (toBuffer p) = (8 + List.length (payload p))%nat.
Proof.
  destruct (toBuffer_header p)
    as (b0 & b1 & b2 & b3 & b4 & b5 & b6 & b7 & -> & _).
  reflexivity.
Qed.

Lemma fromBuffer_Return_length (buffer : Buffer) (p : ViscaIpPacket) :
  fromBuffer buffer = Return p -> (8 <= List.length buffer)%nat.
Proof.
  intros H.
  destruct (fromBuffer_Return_inv _ _ H) as (_ & _ & _ & _ & _ & n & _ & E4).
  destruct (Nat.le_gt_cases 8 (List.length buffer)) as [Hle | Hgt];
    [exact Hle|].
  rewrite readUInt32BE_Throw in E4 by lia. discriminate.
Qed.

Lemma readUInt16BE_range (buffer : Buffer) (offset : nat) (value : Z) :
  readUInt16BE buffer offset = Return value -> 0 <= value < 2 ^ 16.
Proof.
  unfold readUInt16BE.
  destruct (nth_error buffer offset) as [first|]; [|discriminate].
  destruct (nth_error buffer (offset + 1)) as [last|]; [|discriminate].
  intros H. injection H as <-.
  pose proof (byteValue_range first). pose proof (byteValue_range last).
  change (2 ^ 8) with 256. change (2 ^ 16) with 65536. lia.
Qed.

Lemma readUInt32BE_range (buffer : Buffer) (offset : nat) (value : Z) :
  readUInt32BE buffer offset = Return value -> 0 <= value < 2 ^ 32.
Proof.
  unfold readUInt32BE.
  destruct (nth_error buffer offset) as [first|]; [|discriminate].
  destruct (nth_error buffer (offset + 3)) as [last|]; [|discriminate].
  intros H. injection H as <-.
  pose proof (byteValue_range first). pose proof (byteValue_range last).
  pose proof (byteValue_range (nth (offset + 1) buffer x00)).
  pose proof (byteValue_range (nth (offset + 2) buffer x00)).
  change (2 ^ 8) with 256. change (2 ^ 16) with 65536.
  change (2 ^ 24) with 16777216. change (2 ^ 32) with 4294967296. lia.
Qed.

(** X1. Encoding after decoding is the identity: whenever [fromBuffer]
    returns a packet for a datagram, [toBuffer] of that packet is the
    datagram, byte for byte. *)
Theorem toBuffer_fromBuffer (buffer : Buffer) (p : ViscaIpPacket) :
  fromBuffer buffer = Return p -> toBuffer p = buffer.
Proof.
  intros H.
  pose proof (fromBuffer_Return_length _ _ H) as Hlen.
  destruct (fromBuffer_Return_inv _ _ H)
    as (Hpl & _ & E0 & _ & E2 & n & Hn & E4).
  destruct buffer as [|b0 [|b1 [|b2 [|b3 [|b4 [|b5 [|b6 [|b7 rest]]]]]]]];
    cbn [List.length] in Hlen; try lia.
  destruct p as [ty len sq pl].
  cbn [type length sequenceNumber payload] in *.
  unfold readUInt16BE in E0, E2. unfold readUInt32BE in E4.
  cbn [nth_error nth Nat.add] in E0, E2, E4.
  injection E0 as <-. injection E2 as <-. injection E4 as <-.
  subst sq. unfold JS.subarray in Hpl. cbn [skipn] in Hpl. subst pl.
  unfold toBuffer, JS.Buffer_from. rewrite map_app.
  fold (JS.Buffer_from (JS.spread rest)). rewrite Buffer_from_spread.
  cbn [type length sequenceNumber payload map app JS.ToNumber].
  pose proof (byteValue_range b0). pose proof (byteValue_range b1).
  pose proof (byteValue_range b2). pose proof (byteValue_range b3).
  pose proof (byteValue_range b4). pose proof (byteValue_range b5).
  pose proof (byteValue_range b6). pose proof (byteValue_range b7).
  repeat f_equal; apply ToUint8_byteValue; rewrite ?ushr_div by lia;
    change (2 ^ 32) with 4294967296; change (2 ^ 8) with 256;
    change (2 ^ 16) with 65536; change (2 ^ 24) with 16777216;
    Z.div_mod_to_equations; lia.
Qed.

Lemma toBuffer_fromBuffer_witness :
  toBuffer (mkViscaIpPacket 0x0110 5 (Some 2) [x81; x09; x04; x47; xff])
  = request2.
Proof.
  apply (toBuffer_fromBuffer request2). reflexivity.
Defined.

(** X2. Which datagrams decode: [fromBuffer] returns a packet exactly when
    the datagram has at least eight bytes, its first two bytes read as one
    of the six members, and bytes 2-3 read as the number of bytes after the
    header. *)
Theorem fromBuffer_Return_iff (buffer : Buffer) :
  (exists p, fromBuffer buffer = Return p) <->
  (8 <= List.length buffer)%nat /\
  (exists value, readUInt16BE buffer 0 = Return value /\
                 ViscaIpPacketType.isMember value = true) /\
  readUInt16BE buffer 2 = Return (Z.of_nat (List.length buffer - 8)).
Proof.
  split.
  - intros (p & H).
    pose proof (fromBuffer_Return_length _ _ H) as Hlen.
    destruct (fromBuffer_Return_inv _ _ H)
      as (Hpl & Hl & E0 & Hm & E2 & _).
    split; [exact Hlen|]. split; [eauto|].
    rewrite E2, Hl, Hpl. unfold JS.length, JS.subarray.
    now rewrite length_skipn.
  - intros (Hlen & (value & E0 & Hm) & E2).
    destruct (fromBuffer_full_header buffer Hlen)
      as (value' & declared & sequence & E0' & E2' & _ & ->).
    rewrite E0 in E0'. injection E0' as <-.
    rewrite E2 in E2'. injection E2' as <-.
    rewrite Hm. unfold JS.length, JS.subarray. rewrite length_skipn.
    rewrite Z.eqb_refl. eauto.
Qed.

(** X3. Every packet [fromBuffer] returns is valid (category one of the six
    members, 32-bit sequence number, length field equal to the payload's
    byte count, at most 65535 payload bytes), so the datagram it came from
    has between 8 and 65543 bytes. *)
Theorem fromBuffer_isValidPacket (buffer : Buffer) (p : ViscaIpPacket) :
  fromBuffer buffer = Return p ->
  isValidPacket p = true /\
  8 <= JS.length buffer <= 65543.
Proof.
  intros H.
  pose proof (fromBuffer_Return_length _ _ H) as Hlen.
  destruct (fromBuffer_Return_inv _ _ H)
    as (Hpl & Hl & _ & Hm & E2 & n & Hn & E4).
  pose proof (readUInt16BE_range _ _ _ E2) as Hr2.
  pose proof (readUInt32BE_range _ _ _ E4) as Hr4.
  change (2 ^ 16) with 65536 in Hr2.
  assert (Hsize : JS.length (payload p) <= 65535) by lia.
  split.
  - unfold isValidPacket. rewrite Hm, Hn. cbn [andb].
    rewrite !andb_true_iff. repeat split.
    + apply Z.leb_le. lia.
    + apply Z.ltb_lt. lia.
    + apply Z.eqb_eq. exact Hl.
    + apply Z.leb_le. exact Hsize.
  - rewrite Hpl in Hsize. unfold JS.length, JS.subarray in *.
    rewrite length_skipn in Hsize. lia.
Qed.

Lemma fromBuffer_isValidPacket_witness :
  isValidPacket (mkViscaIpPacket 0x0200 2 (Some 1) [x01; xff]) = true /\
  8 <= JS.length request1 <= 65543.
Proof.
  apply (fromBuffer_isValidPacket request1). reflexivity.
Defined.

(** The sequence number bytes [toBuffer] writes read back as the sequence
    number modulo 2^32, [null] counting as 0. *)
Lemma readUInt32BE_toBuffer (p : ViscaIpPacket) :
  readUInt32BE (toBuffer p) 4
  = Return (JS.ToUint32 (JS.ToNumber (sequenceNumber p))).
Proof.
  destruct (toBuffer_header p)
    as (b0 & b1 & b2 & b3 & b4 & b5 & b6 & b7 & -> &
        _ & _ & _ & _ & H4 & H5 & H6 & H7).
  unfold readUInt32BE. cbn [nth_error nth Nat.add].
  rewrite H4, H5, H6, H7.
  set (x := JS.ToNumber (sequenceNumber p)).
  assert (Hy : 0 <= JS.ToUint32 x < 2 ^ 32)
    by (unfold JS.ToUint32; apply Z.mod_pos_bound; reflexivity).
  assert (Hu : forall k, JS.ushr x k = JS.ushr (JS.ToUint32 x) k).
  { intros k. unfold JS.ushr, JS.ToUint32. now rewrite Z.mod_mod. }
  assert (Hm : x mod 256 = JS.ToUint32 x mod 256).
  { unfold JS.ToUint32. change (2 ^ 32) with 4294967296.
    Z.div_mod_to_equations. lia. }
  rewrite !Hu, Hm. now rewrite (uint32_bytes _ Hy).
Qed.

(** X4. Decoding what [toBuffer] wrote, for any sequence number: when the
    category is one of the six members and the length field is the
    payload's byte count, at most 65535, [fromBuffer (toBuffer p)] returns
    [p] with its sequence number reduced modulo 2^32 ([null] becoming 0).
    Two packets whose sequence numbers agree modulo 2^32 are the same on
    the wire. *)
Theorem fromBuffer_toBuffer_ToUint32 (p : ViscaIpPacket) :
  ViscaIpPacketType.isMember (type p) = true ->
  length p = JS.length (payload p) ->
  JS.length (payload p) <= 65535 ->
  fromBuffer (toBuffer p)
  = Return (mkViscaIpPacket (type p) (length p)
              (Some (JS.ToUint32 (JS.ToNumber (sequenceNumber p))))
              (payload p)).
Proof.
  intros Hm Hl Hmax.
  pose proof (isMember_range _ Hm) as Hty.
  pose proof (JS_length_nonneg (payload p)) as Hpl.
  pose proof (readUInt32BE_toBuffer p) as E4.
  destruct (toBuffer_header p)
    as (b0 & b1 & b2 & b3 & b4 & b5 & b6 & b7 & E &
        H0 & H1 & H2 & H3 & _).
  assert (E0 : readUInt16BE (toBuffer p) 0 = Return (type p)).
  { rewrite E. unfold readUInt16BE. cbn [nth_error Nat.add].
    rewrite H0, H1. now rewrite (uint16_bytes _ Hty). }
  assert (E2 : readUInt16BE (toBuffer p) 2 = Return (length p)).
  { rewrite E. unfold readUInt16BE. cbn [nth_error Nat.add].
    rewrite H2, H3. rewrite uint16_bytes; [reflexivity|].
    change (2 ^ 16) with 65536. lia. }
  assert (E8 : JS.subarray (toBuffer p) 8 = payload p)
    by (rewrite E; reflexivity).
  unfold fromBuffer. rewrite E0. cbn [bind].
  rewrite _parseType_isMember, Hm. cbn [bind].
  rewrite E2, E4. cbn [bind]. rewrite E8, <- Hl, Z.eqb_refl. reflexivity.
Qed.

Lemma fromBuffer_toBuffer_ToUint32_witness :
  fromBuffer
    (toBuffer (mkViscaIpPacket 0x0111 3 (Some (2 ^ 32 + 7)) [x90; x50; xff]))
  = Return (mkViscaIpPacket 0x0111 3 (Some 7) [x90; x50; xff]) /\
  fromBuffer (toBuffer (mkViscaIpPacket 0x0111 3 None [x90; x50; xff]))
  = Return (mkViscaIpPacket 0x0111 3 (Some 0) [x90; x50; xff]).
Proof.
  split.
  - apply (fromBuffer_toBuffer_ToUint32
             (mkViscaIpPacket 0x0111 3 (Some (2 ^ 32 + 7)) [x90; x50; xff]));
      [ reflexivity | reflexivity | cbn; lia ].
  - apply (fromBuffer_toBuffer_ToUint32
             (mkViscaIpPacket 0x0111 3 None [x90; x50; xff]));
      [ reflexivity | reflexivity | cbn; lia ].
Defined.

(** X5. [toBuffer] does not check the payload size: a packet made by
    [fromPayload] from more than 65535 payload bytes is written with the
    length field wrapped modulo 65536, and [fromBuffer] rejects the result
    with [LengthMismatch]. *)
Theorem fromBuffer_toBuffer_oversize (packetType : Z)
    (sequence : option Z) (data : Buffer) :
  ViscaIpPacketType.isMember packetType = true ->
  65535 < JS.length data ->
  fromBuffer (toBuffer (fromPayload packetType sequence data))
  = Throw (LengthMismatch (JS.length data mod 65536) (JS.length data)).
Proof.
  intros Hm Hbig.
  set (p := fromPayload packetType sequence data).
  pose proof (isMember_range _ Hm) as Hty.
  pose proof (readUInt32BE_toBuffer p) as E4.
  destruct (toBuffer_header p)
    as (b0 & b1 & b2 & b3 & b4 & b5 & b6 & b7 & E &
        H0 & H1 & H2 & H3 & _).
  cbn [p fromPayload type length payload] in H0, H1, H2, H3, E.
  assert (E0 : readUInt16BE (toBuffer p) 0 = Return packetType).
  { rewrite E. unfold readUInt16BE. cbn [nth_error Nat.add].
    rewrite H0, H1. now rewrite (uint16_bytes _ Hty). }
  assert (E2 : readUInt16BE (toBuffer p) 2
               = Return (JS.length data mod 65536)).
  { rewrite E. unfold readUInt16BE. cbn [nth_error Nat.add].
    rewrite H2, H3. f_equal. rewrite ushr_div by lia.
    change (2 ^ 32) with 4294967296. change (2 ^ 8) with 256.
    Z.div_mod_to_equations. lia. }
  assert (E8 : JS.subarray (toBuffer p) 8 = data)
    by (rewrite E; reflexivity).
  unfold fromBuffer. rewrite E0. cbn [bind].
  rewrite _parseType_isMember, Hm. cbn [bind].
  rewrite E2, E4. cbn [bind]. rewrite E8.
  assert (Hne : (JS.length data =? JS.length data mod 65536) = false).
  { apply Z.eqb_neq. Z.div_mod_to_equations. lia. }
  rewrite Hne. reflexivity.
Qed.

Lemma fromBuffer_toBuffer_oversize_witness :
  65535 < JS.length oversizeFrame /\
  fromBuffer
    (toBuffer (fromPayload ViscaIpPacketType.reply (Some 9) oversizeFrame))
  = Throw (LengthMismatch (JS.length oversizeFrame mod 65536)
             (JS.length oversizeFrame)).
Proof.
  split.
  - vm_compute. reflexivity.
  - apply (fromBuffer_toBuffer_oversize ViscaIpPacketType.reply (Some 9)
             oversizeFrame); [ reflexivity | vm_compute; reflexivity ].
Defined.

(** ** Diagnostic rendering *)

Lemma appendAt_last (array : list string) (entry : string) (c : ascii) :
  appendAt (array ++ [entry]) (List.length array) c
  = array ++ [(entry ++ String c EmptyString)%string].
Proof.
  induction array as [|x array IH]; cbn [app List.length appendAt].
  - reflexivity.
  - now rewrite IH.
Qed.

Lemma odd_index (k : nat) :
  Nat.eqb (Nat.modulo (S (2 * k)) 2) 0 = false /\ Nat.div (S (2 * k)) 2 = k.
Proof.
  replace (S (2 * k))%nat with (1 + k * 2)%nat by lia.
  rewrite Nat.Div0.mod_add, Nat.div_add by lia.
  split; reflexivity.
Qed.

Lemma even_index (k : nat) : Nat.eqb (Nat.modulo (2 * k) 2) 0 = true.
Proof.
  rewrite Nat.mul_comm, Nat.Div0.mod_mul. reflexivity.
Qed.

(** The [reduce] of [bufferToHexString], started on an array that already
    holds the pairs of the bytes before. *)
Lemma reduce_pairs (buffer : Buffer) :
  forall array : list string,
    fold_left reducer
      (combine (map toUpperCase (toString_hex buffer))
         (seq (2 * List.length array)
            (List.length (map toUpperCase (toString_hex buffer)))))
      array
    = array ++ map byteToHex buffer.
Proof.
  induction buffer as [|b buffer IH]; intros array.
  - cbn. now rewrite app_nil_r.
  - cbn [toString_hex flat_map app map List.length seq combine fold_left].
    fold (toString_hex buffer).
    unfold reducer at 3. rewrite even_index.
    unfold reducer at 2.
    destruct (odd_index (List.length array)) as [-> ->].
    rewrite appendAt_last. cbn [String.append].
    replace (S (S (2 * List.length array)))%nat
      with (2 * List.length (array ++ [byteToHex b]))%nat
      by (rewrite length_app; cbn [List.length]; lia).
    fold (byteToHex b). rewrite IH. now rewrite <- app_assoc.
Qed.

(** X6. [bufferToHexString] renders each byte as two upper-case hexadecimal
    digits and joins the pairs with single spaces; the empty buffer gives
    the empty string. *)
Theorem bufferToHexString_pairs (buffer : Buffer) :
  bufferToHexString buffer = String.concat " " (map byteToHex buffer).
Proof.
  unfold bufferToHexString.
  exact (f_equal (String.concat " ") (reduce_pairs buffer [])).
Qed.

Lemma hexToByte_byteToHex (b : byte) : hexToByte (byteToHex b) = Some b.
Proof. destruct b; reflexivity. Qed.

Lemma byteToHex_shape (b : byte) :
  exists hi lo, byteToHex b = String hi (String lo EmptyString) /\
                hi <> " "%char /\ lo <> " "%char.
Proof.
  destruct b; do 2 eexists; (split; [reflexivity|]); split; discriminate.
Qed.

Lemma concat_cons_cons (sep x y : string) (rest : list string) :
  String.concat sep (x :: y :: rest)
  = (x ++ sep ++ String.concat sep (y :: rest))%string.
Proof. reflexivity. Qed.

(** Joined pairs of digits determine the bytes. *)
Lemma concat_byteToHex_injective (buffer1 buffer2 : Buffer) :
  String.concat " " (map byteToHex buffer1)
  = String.concat " " (map byteToHex buffer2) ->
  buffer1 = buffer2.
Proof.
  revert buffer2.
  induction buffer1 as [|b1 rest1 IH]; intros [|b2 rest2] H.
  - reflexivity.
  - exfalso. destruct (byteToHex_shape b2) as (h & l & E & _).
    destruct rest2; cbn [map] in H;
      [cbn in H | rewrite concat_cons_cons in H];
      rewrite E in H; discriminate H.
  - exfalso. destruct (byteToHex_shape b1) as (h & l & E & _).
    destruct rest1; cbn [map] in H;
      [cbn in H | rewrite concat_cons_cons in H];
      rewrite E in H; discriminate H.
  - destruct (byteToHex_shape b1) as (h1 & l1 & E1 & _).
    destruct (byteToHex_shape b2) as (h2 & l2 & E2 & _).
    assert (Hb : forall rest rest',
               byteToHex b1 = byteToHex b2 -> rest = rest' ->
               b1 :: rest = b2 :: rest').
    { intros rest rest' Hh ->. f_equal.
      apply (f_equal hexToByte) in Hh.
      rewrite !hexToByte_byteToHex in Hh. now injection Hh. }
    destruct rest1 as [|c1 rest1], rest2 as [|c2 rest2]; cbn [map] in H.
    + cbn [String.concat] in H. now apply Hb.
    + exfalso. rewrite concat_cons_cons in H. cbn [String.concat] in H.
      rewrite E1, E2 in H. cbn [String.append] in H. discriminate H.
    + exfalso. rewrite concat_cons_cons in H. cbn [String.concat] in H.
      rewrite E1, E2 in H. cbn [String.append] in H. discriminate H.
    + rewrite !concat_cons_cons in H.
      rewrite E1, E2 in H. cbn [String.append] in H.
      injection H as Hh Hl Hrest.
      apply Hb; [rewrite E1, E2; congruence|].
      apply IH. cbn [map]. exact Hrest.
Qed.

(** X7. The rendering is unambiguous: two buffers with the same
    [bufferToHexString] are the same buffer. *)
Theorem bufferToHexString_injective (buffer1 buffer2 : Buffer) :
  bufferToHexString buffer1 = bufferToHexString buffer2 ->
  buffer1 = buffer2.
Proof.
  intros H. apply concat_byteToHex_injective.
  pose proof (f_equal (String.concat " ") (reduce_pairs buffer1 [])) as E1.
  pose proof (f_equal (String.concat " ") (reduce_pairs buffer2 [])) as E2.
  cbn [app] in E1, E2.
  exact (eq_trans (eq_sym E1) (eq_trans H E2)).
Qed.

Lemma bufferToHexString_injective_witness :
  [x81; x01; xff] = [x81; x01; xff].
Proof.
  apply (bufferToHexString_injective [x81; x01; xff] [x81; x01; xff]).
  reflexivity.
Defined.

(** The two bytes [numberToHexString] renders for a value read from the
    first two bytes of a buffer are those two bytes. *)
Lemma numberArray_readUInt16BE (buffer : Buffer) (value : Z) :
  readUInt16BE buffer 0 = Return value ->
  JS.Buffer_from (numberArray value 2) = firstn 2 buffer.
Proof.
  unfold readUInt16BE.
  destruct buffer as [|b0 [|b1 rest]]; cbn [nth_error Nat.add];
    try discriminate.
  intros H. injection H as <-.
  pose proof (byteValue_range b0). pose proof (byteValue_range b1).
  cbn [numberArray firstn JS.Buffer_from map]. unfold unsignedRightShift.
  change (Z.land (Z.of_nat 1 * 8) 31) with 8.
  change (Z.land (Z.of_nat 0 * 8) 31) with 0.
  repeat f_equal; apply ToUint8_byteValue; rewrite ushr_div by lia;
    change (2 ^ 32) with 4294967296; change (2 ^ 8) with 256;
    change (2 ^ 0) with 1; Z.div_mod_to_equations; lia.
Qed.

Lemma readUInt16BE_Throw_inv (buffer : Buffer) (offset : nat)
    (e : Exception) :
  readUInt16BE buffer offset = Throw e -> e = RangeError offset.
Proof.
  unfold readUInt16BE.
  destruct (nth_error buffer offset), (nth_error buffer (offset + 1));
    intros H; try discriminate H; now injection H.
Qed.

Lemma readUInt32BE_Throw_inv (buffer : Buffer) (offset : nat)
    (e : Exception) :
  readUInt32BE buffer offset = Throw e -> e = RangeError offset.
Proof.
  unfold readUInt32BE.
  destruct (nth_error buffer offset), (nth_error buffer (offset + 3));
    intros H; try discriminate H; now injection H.
Qed.

(** The exceptions of [fromBuffer], each with the check that raised it. *)
Lemma fromBuffer_Throw_inv (buffer : Buffer) (e : Exception) :
  fromBuffer buffer = Throw e ->
  (exists offset, e = RangeError offset) \/
  (exists value, e = UnknownCategory value /\
                 readUInt16BE buffer 0 = Return value /\
                 ViscaIpPacketType.isMember value = false) \/
  (exists declared, e = LengthMismatch declared
                          (JS.length (JS.subarray buffer 8)) /\
                    readUInt16BE buffer 2 = Return declared /\
                    declared <> JS.length (JS.subarray buffer 8)).
Proof.
  unfold fromBuffer.
  destruct (readUInt16BE buffer 0) as [v|e0] eqn:E0; cbn [bind].
  2:{ intros H. injection H as <-. left.
      exists 0%nat. exact (readUInt16BE_Throw_inv _ _ _ E0). }
  rewrite _parseType_isMember.
  destruct (ViscaIpPacketType.isMember v) eqn:Em; cbn [bind].
  2:{ intros H. injection H as <-. right. left. eauto. }
  destruct (readUInt16BE buffer 2) as [d|e2] eqn:E2; cbn [bind].
  2:{ intros H. injection H as <-. left.
      exists 2%nat. exact (readUInt16BE_Throw_inv _ _ _ E2). }
  destruct (readUInt32BE buffer 4) as [n|e4] eqn:E4; cbn [bind].
  2:{ intros H. injection H as <-. left.
      exists 4%nat. exact (readUInt32BE_Throw_inv _ _ _ E4). }
  destruct (JS.length (JS.subarray buffer 8) =? d) eqn:El; cbn [negb];
    [discriminate|].
  intros H. injection H as <-. right. right.
  exists d. apply Z.eqb_neq in El. repeat split; congruence.
Qed.

(** X8. When [fromBuffer] rejects a datagram for its category, the message
    of the error, built with [numberToHexString], shows the first two bytes
    of the datagram in hexadecimal. *)
Theorem unknownPacketTypeMessage_bytes (buffer : Buffer) (value : Z) :
  fromBuffer buffer = Throw (UnknownCategory value) ->
  unknownPacketTypeMessage value
  = ("Unknown packet type: " ++ bufferToHexString (firstn 2 buffer))%string.
Proof.
  intros H.
  assert (E0 : readUInt16BE buffer 0 = Return value).
  { destruct (fromBuffer_Throw_inv _ _ H)
      as [(o & Ho) | [(v & Hv & E0 & _) | (d & Hd & _)]];
      try discriminate.
    now injection Hv as ->. }
  unfold unknownPacketTypeMessage, numberToHexString.
  now rewrite (numberArray_readUInt16BE _ _ E0).
Qed.

Lemma unknownPacketTypeMessage_bytes_witness :
  unknownPacketTypeMessage 0xFFFF = "Unknown packet type: FF FF"%string.
Proof.
  apply (unknownPacketTypeMessage_bytes categoryFFFF 0xFFFF). reflexivity.
Defined.

(** X9. [typeAsString] names the six categories with six different names
    and gives ["unknown"] exactly for a value that is none of them; in
    particular a packet returned by [fromBuffer] is never ["unknown"]. *)
Theorem typeAsString_names (p : ViscaIpPacket) :
  (typeAsString p = "unknown"%string
   <-> ViscaIpPacketType.isMember (type p) = false) /\
  (forall q, ViscaIpPacketType.isMember (type p) = true ->
             typeAsString p = typeAsString q -> type p = type q) /\
  (forall buffer, fromBuffer buffer = Return p ->
                  typeAsString p <> "unknown"%string).
Proof.
  assert (H1 : typeAsString p = "unknown"%string
               <-> ViscaIpPacketType.isMember (type p) = false).
  { unfold typeAsString, ViscaIpPacketType.isMember,
      ViscaIpPacketType.members. cbn [existsb]. rewrite orb_false_r.
    destruct (type p =? ViscaIpPacketType.command);
    destruct (type p =? ViscaIpPacketType.inquiry);
    destruct (type p =? ViscaIpPacketType.reply);
    destruct (type p =? ViscaIpPacketType.deviceSettingCommand);
    destruct (type p =? ViscaIpPacketType.controlCommand);
    destruct (type p =? ViscaIpPacketType.controlReply);
    cbn [orb]; split; intros H; try reflexivity; discriminate H. }
  split; [exact H1|]. split.
  - intros q Hm.
    assert (Hcases : In (type p) ViscaIpPacketType.members).
    { unfold ViscaIpPacketType.isMember in Hm.
      apply existsb_exists in Hm. destruct Hm as (c & Hin & Hc).
      apply Z.eqb_eq in Hc. now subst c. }
    unfold typeAsString.
    destruct Hcases as [<- | [<- | [<- | [<- | [<- | [<- | []]]]]]];
      cbn -[type Z.eqb];
      repeat match goal with
             | |- context [type q =? ?c] =>
                 let E := fresh "E" in
                 destruct (type q =? c) eqn:E;
                 [apply Z.eqb_eq in E|]
             end;
      intros H; try discriminate H; congruence.
  - intros buffer H Hu. apply H1 in Hu.
    destruct (fromBuffer_Return_inv _ _ H) as (_ & _ & _ & Hm & _).
    congruence.
Qed.

(** X10. For up to four bytes [numberToHexString] renders the big-endian
    representation: the [bytes] bytes it renders have the big-endian value
    [number], for every [0 <= number < 256 ^ bytes]. *)
Theorem numberArray_bigEndian (number : Z) (bytes : nat) :
  (bytes <= 4)%nat ->
  0 <= number < 256 ^ Z.of_nat bytes ->
  List.length (JS.Buffer_from (numberArray number bytes)) = bytes /\
  bigEndian (JS.Buffer_from (numberArray number bytes)) = number.
Proof.
  intros Hb Hn.
  destruct bytes as [|[|[|[|[|bytes]]]]]; try lia;
    (split; [reflexivity|]);
    cbn [numberArray JS.Buffer_from map bigEndian fold_left];
    unfold unsignedRightShift;
    rewrite ?byteValue_ToUint8;
    cbn [Z.of_nat Pos.of_succ_nat Pos.succ Z.mul Pos.mul Pos.add
         Z.land Pos.land] in *;
    rewrite ?ushr_div by lia;
    change (2 ^ 32) with 4294967296; change (2 ^ 0) with 1;
    change (2 ^ 8) with 256; change (2 ^ 16) with 65536;
    change (2 ^ 24) with 16777216;
    [ change (256 ^ 0) with 1 in Hn
    | change (256 ^ 1) with 256 in Hn
    | change (256 ^ 2) with 65536 in Hn
    | change (256 ^ 3) with 16777216 in Hn
    | change (256 ^ 4) with 4294967296 in Hn ];
    Z.div_mod_to_equations; lia.
Qed.

Lemma numberArray_bigEndian_witness :
  List.length (JS.Buffer_from (numberArray 0x0111 2)) = 2%nat /\
  bigEndian (JS.Buffer_from (numberArray 0x0111 2)) = 0x0111.
Proof.
  apply (numberArray_bigEndian 0x0111 2); [lia | cbn; lia].
Defined.

Lemma unsignedRightShift_period (number : Z) (i : nat) :
  unsignedRightShift number (Z.of_nat (i + 4) * 8)
  = unsignedRightShift number (Z.of_nat i * 8).
Proof.
  unfold unsignedRightShift. f_equal.
  change 31 with (Z.ones 5). rewrite !Z.land_ones by lia.
  change (2 ^ 5) with 32.
  rewrite Nat2Z.inj_add. Z.div_mod_to_equations. lia.
Qed.

(** X11. Beyond four bytes [numberToHexString] repeats instead of
    extending: the shift count of [>>>] wraps at 32, so with four more
    bytes the rendering is the one for [bytes] followed by the four-byte
    rendering again. *)
Theorem numberArray_wraps (number : Z) (bytes : nat) :
  numberArray number (bytes + 4)
  = numberArray number bytes ++ numberArray number 4.
Proof.
  induction bytes as [|bytes IH].
  - reflexivity.
  - change (S bytes + 4)%nat with (S (bytes + 4)).
    cbn [numberArray app]. rewrite IH.
    now rewrite unsignedRightShift_period.
Qed.

(** ** The relay over whole runs *)

Lemma runEvents_message_Return (msgBuffer : Buffer) (remoteInfo : RemoteInfo)
    (rest : list Event) (s : Session) (p : ViscaIpPacket) :
  fromBuffer msgBuffer = Return p ->
  let r' :=
    runEvents rest
      (mkSession (sequenceNumber p) (Some remoteInfo) (Some (type p))) in
  runEvents (message msgBuffer remoteInfo :: rest) s
  = mkRun (session r')
      ([console_log (SocketRECV (toHexString p));
        console_log (SerialSEND (bufferToHexString (payload p)));
        serialPort_write (payload p)] ++ effects r')
      (outcome r').
Proof.
  intros E r'. cbn [runEvents dispatch].
  now rewrite (hbind_Return _ _ _ _ _ _ (onMessage_Return _ _ s _ E)).
Qed.

Lemma runEvents_message_Throw (msgBuffer : Buffer) (remoteInfo : RemoteInfo)
    (rest : list Event) (s : Session) (e : Exception) :
  fromBuffer msgBuffer = Throw e ->
  let r' := runEvents rest s in
  runEvents (message msgBuffer remoteInfo :: rest) s
  = mkRun (session r') ([console_log (SocketRECVError e)] ++ effects r')
      (outcome r').
Proof.
  intros E r'. cbn [runEvents dispatch].
  now rewrite (hbind_Return _ _ _ _ _ _ (onMessage_Throw _ _ s _ E)).
Qed.

Lemma runEvents_data_peer (responseData : Buffer) (rest : list Event)
    (s : Session) (remoteInfo : RemoteInfo) :
  currentRemoteInfo s = Some remoteInfo ->
  isValidPort (port remoteInfo) = true ->
  let responsePacket :=
    fromPayload (responsePacketTypeFor (currentPacketType s))
      (currentSequenceNumber s) responseData in
  let r' := runEvents rest s in
  runEvents (data responseData :: rest) s
  = mkRun (session r')
      ([console_log (SerialRECV (bufferToHexString responseData));
        console_log (SocketSEND (toHexString responsePacket));
        socket_send (toBuffer responsePacket) (port remoteInfo)
          (address remoteInfo)] ++ effects r')
      (outcome r').
Proof.
  intros E Hp responsePacket r'. cbn [runEvents dispatch].
  now rewrite (hbind_Return _ _ _ _ _ _ (onData_peer _ s _ E Hp)).
Qed.

Lemma runEvents_data_bad_port (responseData : Buffer) (rest : list Event)
    (s : Session) (remoteInfo : RemoteInfo) :
  currentRemoteInfo s = Some remoteInfo ->
  isValidPort (port remoteInfo) = false ->
  runEvents (data responseData :: rest) s
  = mkRun s
      [console_log (SerialRECV (bufferToHexString responseData));
       console_log
         (SocketSEND
            (toHexString
               (fromPayload (responsePacketTypeFor (currentPacketType s))
                  (currentSequenceNumber s) responseData)))]
      (Throw (ERR_SOCKET_BAD_PORT (port remoteInfo))).
Proof.
  intros E Hp. cbn [runEvents dispatch].
  now rewrite (hbind_Throw _ _ _ _ _ _ (onData_bad_port _ s _ E Hp)).
Qed.

Lemma runEvents_data_no_peer (responseData : Buffer) (rest : list Event)
    (s : Session) :
  currentRemoteInfo s = None ->
  runEvents (data responseData :: rest) s
  = mkRun s
      [console_log (SerialRECV (bufferToHexString responseData));
       console_log
         (SocketSEND
            (toHexString
               (fromPayload (responsePacketTypeFor (currentPacketType s))
                  (currentSequenceNumber s) responseData)))]
      (Throw (TypeError "port")).
Proof.
  intros E. cbn [runEvents dispatch].
  now rewrite (hbind_Throw _ _ _ _ _ _ (onData_no_peer _ s E)).
Qed.

Lemma isDecodable_true (msgBuffer : Buffer) :
  isDecodable msgBuffer = true -> exists p, fromBuffer msgBuffer = Return p.
Proof.
  unfold isDecodable. destruct (fromBuffer msgBuffer); [eauto|discriminate].
Qed.

(** The reply datagram: its category and the frame it carries. *)
Lemma toBuffer_response (packetType sequence : option Z)
    (responseData : Buffer) :
  let msg :=
    toBuffer (fromPayload (responsePacketTypeFor packetType) sequence
                responseData) in
  JS.subarray msg 8 = responseData /\
  readUInt16BE msg 0 = Return (responsePacketTypeFor packetType) /\
  (responsePacketTypeFor packetType = ViscaIpPacketType.reply \/
   responsePacketTypeFor packetType = ViscaIpPacketType.controlReply).
Proof.
  intros msg. subst msg.
  destruct (toBuffer_header
              (fromPayload (responsePacketTypeFor packetType) sequence
                 responseData))
    as (b0 & b1 & b2 & b3 & b4 & b5 & b6 & b7 & -> & H0 & H1 & _).
  assert (Hr : responsePacketTypeFor packetType = ViscaIpPacketType.reply \/
               responsePacketTypeFor packetType
               = ViscaIpPacketType.controlReply).
  { unfold responsePacketTypeFor. destruct (strictEquals _ _); auto. }
  split; [reflexivity|]. split; [|exact Hr].
  unfold readUInt16BE. cbn [nth_error Nat.add].
  rewrite H0, H1. cbn [fromPayload type].
  rewrite uint16_bytes; [reflexivity|].
  destruct Hr as [-> | ->]; cbv; split; congruence.
Qed.

(** X12. A datagram that decodes is forwarded verbatim: the handler writes
    to the serial port exactly once, the bytes of the datagram after its
    eight-byte header, sends nothing on the socket and overwrites the three
    variables with the packet's sequence number, the sender and the
    packet's category, whatever they held before. *)
Theorem onMessage_forward (msgBuffer : Buffer) (remoteInfo : RemoteInfo)
    (s : Session) (p : ViscaIpPacket) :
  fromBuffer msgBuffer = Return p ->
  let r := onMessage msgBuffer remoteInfo s in
  serialWrites (effects r) = [JS.subarray msgBuffer 8] /\
  networkSends (effects r) = [] /\
  session r
  = mkSession (sequenceNumber p) (Some remoteInfo) (Some (type p)) /\
  outcome r = Return tt.
Proof.
  intros E r. subst r. rewrite (onMessage_Return _ _ _ _ E).
  destruct (fromBuffer_Return_inv _ _ E) as (Hpl & _).
  cbn [effects session outcome serialWrites networkSends flat_map app].
  rewrite Hpl. repeat split.
Qed.

Lemma onMessage_forward_witness :
  let r := onMessage request2 peerB sessionAfterInquiry in
  serialWrites (effects r) = [[x81; x09; x04; x47; xff]] /\
  networkSends (effects r) = [] /\
  session r = mkSession (Some 2) (Some peerB) (Some 0x0110) /\
  outcome r = Return tt.
Proof.
  apply (onMessage_forward request2 peerB sessionAfterInquiry
           (mkViscaIpPacket 0x0110 5 (Some 2) [x81; x09; x04; x47; xff])).
  reflexivity.
Defined.

(** X13. The three variables stay coherent: started with all three [null]
    or all three set (32-bit sequence number, category one of the six
    members), every run of events leaves them all [null] or all set in
    the same way. *)
Theorem runEvents_isCoherent (evs : list Event) (s : Session) :
  isCoherent s = true ->
  isCoherent (session (runEvents evs s)) = true.
Proof.
  revert s. induction evs as [|ev rest IH]; intros s Hs.
  - exact Hs.
  - destruct ev as [msgBuffer remoteInfo | responseData].
    + destruct (fromBuffer msgBuffer) as [p|e] eqn:E.
      * rewrite (runEvents_message_Return _ _ _ _ _ E).
        cbn [session]. apply IH.
        destruct (fromBuffer_Return_inv _ _ E)
          as (_ & _ & _ & Hm & _ & n & Hn & E4).
        pose proof (readUInt32BE_range _ _ _ E4) as Hr.
        unfold isCoherent.
        cbn [currentSequenceNumber currentRemoteInfo currentPacketType].
        rewrite Hn, Hm.
        destruct Hr as [H0 H1].
        apply Z.leb_le in H0. apply Z.ltb_lt in H1.
        now rewrite H0, H1.
      * rewrite (runEvents_message_Throw _ _ _ _ _ E).
        cbn [session]. now apply IH.
    + destruct (currentRemoteInfo s) as [remoteInfo|] eqn:Er.
      * destruct (isValidPort (port remoteInfo)) eqn:Hp.
        -- rewrite (runEvents_data_peer _ _ _ _ Er Hp).
           cbn [session]. now apply IH.
        -- rewrite (runEvents_data_bad_port _ _ _ _ Er Hp). exact Hs.
      * rewrite (runEvents_data_no_peer _ _ _ Er). exact Hs.
Qed.

Lemma runEvents_isCoherent_witness :
  isCoherent
    (session
       (runEvents
          [message categoryFFFF peerA; message request1 peerA;
           data frame; message request2 peerB]
          initialSession)) = true.
Proof.
  apply (runEvents_isCoherent
           [message categoryFFFF peerA; message request1 peerA;
            data frame; message request2 peerB] initialSession).
  reflexivity.
Defined.

(** X14. With a recorded peer whose port [socket.send] accepts (1 to
    65535), and every datagram that decodes coming from such a port, the
    relay never throws and relays everything in order: no exception
    leaves a handler, the datagrams sent carry exactly the serial frames,
    one each and in arrival order, and the serial port receives exactly
    the bytes after the header of each datagram that decodes, in arrival
    order. *)
Theorem runEvents_relays_in_order (evs : list Event) (s : Session)
    (remoteInfo : RemoteInfo) :
  currentRemoteInfo s = Some remoteInfo ->
  0 < port remoteInfo < 65536 ->
  sendersSendable evs = true ->
  let r := runEvents evs s in
  outcome r = Return tt /\
  map (fun sent => JS.subarray (fst (fst sent)) 8) (networkSends (effects r))
  = frames evs /\
  serialWrites (effects r) = decodablePayloads evs.
Proof.
  intros Er Hport. apply isValidPort_true in Hport.
  revert s remoteInfo Er Hport.
  induction evs as [|ev rest IH]; intros s remoteInfo Er Hp Hs r; subst r.
  - repeat split.
  - cbn [sendersSendable forallb] in Hs. apply andb_true_iff in Hs.
    destruct Hs as [Hev Hrest]. fold (sendersSendable rest) in Hrest.
    destruct ev as [msgBuffer sender | responseData].
    + cbn [frames decodablePayloads flat_map app].
      unfold isDecodable in Hev |- *.
      destruct (fromBuffer msgBuffer) as [p|e] eqn:E.
      * cbn [negb orb] in Hev.
        rewrite (runEvents_message_Return _ _ _ _ _ E).
        cbn [session effects outcome networkSends serialWrites flat_map app].
        destruct (IH (mkSession (sequenceNumber p) (Some sender)
                        (Some (type p))) sender eq_refl Hev Hrest)
          as (Ho & Hn & Hw).
        destruct (fromBuffer_Return_inv _ _ E) as (Hpl & _).
        split; [exact Ho|]. split; [exact Hn|].
        fold (serialWrites
                (effects
                   (runEvents rest
                      (mkSession (sequenceNumber p) (Some sender)
                         (Some (type p)))))).
        now rewrite Hw, Hpl.
      * rewrite (runEvents_message_Throw _ _ _ _ _ E).
        cbn [session effects outcome networkSends serialWrites flat_map app].
        exact (IH s remoteInfo Er Hp Hrest).
    + rewrite (runEvents_data_peer _ _ _ _ Er Hp).
      cbn [session effects outcome networkSends serialWrites flat_map app
           frames decodablePayloads map fst].
      destruct (IH s remoteInfo Er Hp Hrest) as (Ho & Hn & Hw).
      destruct (toBuffer_response (currentPacketType s)
                  (currentSequenceNumber s) responseData) as (H8 & _).
      split; [exact Ho|]. split; [|exact Hw].
      f_equal; [exact H8 | exact Hn].
Qed.

Lemma runEvents_relays_in_order_witness :
  let r :=
    runEvents
      [data frame; message request1 peerA; message categoryFFFF peerA;
       data [x90; x41; xff]; message request2 peerB]
      sessionAfterInquiry in
  outcome r = Return tt /\
  map (fun sent => JS.subarray (fst (fst sent)) 8) (networkSends (effects r))
  = [frame; [x90; x41; xff]] /\
  serialWrites (effects r) = [[x01; xff]; [x81; x09; x04; x47; xff]].
Proof.
  apply (runEvents_relays_in_order
           [data frame; message request1 peerA; message categoryFFFF peerA;
            data [x90; x41; xff]; message request2 peerB]
           sessionAfterInquiry peerA);
    [reflexivity | cbn; lia | reflexivity].
Defined.

(** X15. Datagrams that do not decode do not make a peer: when only such
    datagrams came before the first serial frame, that frame throws the
    [TypeError] of [currentRemoteInfo.port]; nothing was sent or written to
    the serial port, the three variables are still [null], and the events
    after the frame are not handled. *)
Theorem runEvents_orphan_after_malformed (pre rest : list Event)
    (responseData : Buffer) :
  forallb isUndecodableMessage pre = true ->
  let r := runEvents (pre ++ data responseData :: rest) initialSession in
  outcome r = Throw (TypeError "port") /\
  networkSends (effects r) = [] /\
  serialWrites (effects r) = [] /\
  session r = initialSession.
Proof.
  induction pre as [|ev pre IH]; intros Hpre r; subst r.
  - cbn [app]. rewrite runEvents_data_no_peer by reflexivity.
    repeat split.
  - cbn [forallb] in Hpre. apply andb_true_iff in Hpre.
    destruct Hpre as [Hev Hpre].
    destruct ev as [msgBuffer sender | f]; [|discriminate Hev].
    cbn [isUndecodableMessage] in Hev. unfold isDecodable in Hev.
    destruct (fromBuffer msgBuffer) as [p|e] eqn:E; [discriminate Hev|].
    cbn [app]. rewrite (runEvents_message_Throw _ _ _ _ _ E).
    cbn [session effects outcome networkSends serialWrites flat_map app].
    exact (IH Hpre).
Qed.

Lemma runEvents_orphan_after_malformed_witness :
  let r :=
    runEvents
      ([message categoryFFFF peerA; message declaredTooLarge peerB]
       ++ data frame :: [message request1 peerA])
      initialSession in
  outcome r = Throw (TypeError "port") /\
  networkSends (effects r) = [] /\
  serialWrites (effects r) = [] /\
  session r = initialSession.
Proof.
  apply (runEvents_orphan_after_malformed
           [message categoryFFFF peerA; message declaredTooLarge peerB]
           [message request1 peerA] frame).
  reflexivity.
Defined.

(** Where a sent datagram comes from, for a run started in any state. *)
Lemma networkSends_origin (evs : list Event) :
  forall (s : Session) (msg : Buffer) (p : Z) (a : string),
    In (msg, p, a) (networkSends (effects (runEvents evs s))) ->
    ((exists remoteInfo,
         currentRemoteInfo s = Some remoteInfo /\
         p = port remoteInfo /\ a = address remoteInfo) \/
     (exists msgBuffer remoteInfo,
         In (message msgBuffer remoteInfo) evs /\
         isDecodable msgBuffer = true /\
         p = port remoteInfo /\ a = address remoteInfo)) /\
    In (data (JS.subarray msg 8)) evs /\
    (readUInt16BE msg 0 = Return ViscaIpPacketType.reply \/
     readUInt16BE msg 0 = Return ViscaIpPacketType.controlReply).
Proof.
  induction evs as [|ev rest IH]; intros s msg p a Hin.
  - destruct Hin.
  - destruct ev as [msgBuffer sender | responseData].
    + destruct (fromBuffer msgBuffer) as [pk|e] eqn:E.
      * rewrite (runEvents_message_Return _ _ _ _ _ E) in Hin.
        cbn [effects networkSends flat_map app] in Hin.
        destruct (IH _ _ _ _ Hin) as (Hdest & Hf & Hc).
        split; [|split; [right; exact Hf | exact Hc]].
        right. destruct Hdest as [(ri & Hri & -> & ->) | (m & ri & Hm & Hd)].
        -- cbn [currentRemoteInfo] in Hri. injection Hri as <-.
           exists msgBuffer, sender. split; [left; reflexivity|].
           unfold isDecodable. rewrite E. repeat split.
        -- exists m, ri. split; [right; exact Hm | exact Hd].
      * rewrite (runEvents_message_Throw _ _ _ _ _ E) in Hin.
        cbn [effects networkSends flat_map app] in Hin.
        destruct (IH _ _ _ _ Hin) as (Hdest & Hf & Hc).
        split; [|split; [right; exact Hf | exact Hc]].
        destruct Hdest as [Hs | (m & ri & Hm & Hd)]; [left; exact Hs|].
        right. exists m, ri. split; [right; exact Hm | exact Hd].
    + destruct (currentRemoteInfo s) as [remoteInfo|] eqn:Er;
        [destruct (isValidPort (port remoteInfo)) eqn:Hp|].
      * rewrite (runEvents_data_peer _ _ _ _ Er Hp) in Hin.
        cbn [effects networkSends flat_map app] in Hin.
        destruct Hin as [Hhead | Htail].
        -- injection Hhead as <- <- <-.
           destruct (toBuffer_response (currentPacketType s)
                       (currentSequenceNumber s) responseData)
             as (H8 & H0 & Hr).
           split; [left; eauto|]. split.
           ++ left. now rewrite H8.
           ++ rewrite H0. destruct Hr as [-> | ->]; auto.
        -- destruct (IH _ _ _ _ Htail) as (Hdest & Hf & Hc).
           split; [|split; [right; exact Hf | exact Hc]].
           destruct Hdest as [(ri & Hri & Hpa) | (m & ri & Hm & Hd)].
           ++ left. exists ri. rewrite <- Er. split; [exact Hri | exact Hpa].
           ++ right. exists m, ri. split; [right; exact Hm | exact Hd].
      * rewrite (runEvents_data_bad_port _ _ _ _ Er Hp) in Hin.
        destruct Hin.
      * rewrite (runEvents_data_no_peer _ _ _ Er) in Hin.
        destruct Hin.
Qed.

(** X16. The relay only answers: in a run started with the three
    variables [null], every datagram sent goes to the port and address of
    a sender whose datagram decoded, carries after its header a serial
    frame that arrived, and has category [reply] or [controlReply]. *)
Theorem networkSends_only_answers (evs : list Event) (msg : Buffer) (p : Z)
    (a : string) :
  In (msg, p, a) (networkSends (effects (runEvents evs initialSession))) ->
  (exists msgBuffer remoteInfo,
      In (message msgBuffer remoteInfo) evs /\
      isDecodable msgBuffer = true /\
      p = port remoteInfo /\ a = address remoteInfo) /\
  In (data (JS.subarray msg 8)) evs /\
  (readUInt16BE msg 0 = Return ViscaIpPacketType.reply \/
   readUInt16BE msg 0 = Return ViscaIpPacketType.controlReply).
Proof.
  intros Hin.
  destruct (networkSends_origin _ _ _ _ _ Hin) as (Hdest & Hf & Hc).
  split; [|split; assumption].
  destruct Hdest as [(ri & Hri & _) | H]; [discriminate Hri | exact H].
Qed.

Lemma networkSends_only_answers_witness :
  (exists msgBuffer remoteInfo,
      In (message msgBuffer remoteInfo)
        [message request1 peerA; data frame] /\
      isDecodable msgBuffer = true /\
      50000 = port remoteInfo /\ "192.168.0.10"%string = address remoteInfo) /\
  In (data
        (JS.subarray
           [x02; x01; x00; x03; x00; x00; x00; x01; x90; x50; xff] 8))
    [message request1 peerA; data frame] /\
  (readUInt16BE [x02; x01; x00; x03; x00; x00; x00; x01; x90; x50; xff] 0
   = Return ViscaIpPacketType.reply \/
   readUInt16BE [x02; x01; x00; x03; x00; x00; x00; x01; x90; x50; xff] 0
   = Return ViscaIpPacketType.controlReply).
Proof.
  apply (networkSends_only_answers [message request1 peerA; data frame]
           [x02; x01; x00; x03; x00; x00; x00; x01; x90; x50; xff]
           50000 "192.168.0.10"%string).
  left. reflexivity.
Defined.

(** X17. Whatever state a run starts in, every buffer written to the
    serial port is the part after the eight-byte header of a datagram that
    arrived and decoded; serial frames and rejected datagrams never reach
    the serial port. *)
Theorem serialWrites_origin (evs : list Event) (s : Session) (d : Buffer) :
  In d (serialWrites (effects (runEvents evs s))) ->
  exists msgBuffer remoteInfo,
    In (message msgBuffer remoteInfo) evs /\
    isDecodable msgBuffer = true /\
    d = JS.subarray msgBuffer 8.
Proof.
  revert s. induction evs as [|ev rest IH]; intros s Hin.
  - destruct Hin.
  - destruct ev as [msgBuffer sender | responseData].
    + destruct (fromBuffer msgBuffer) as [pk|e] eqn:E.
      * rewrite (runEvents_message_Return _ _ _ _ _ E) in Hin.
        cbn [effects serialWrites flat_map app] in Hin.
        destruct Hin as [Hhead | Htail].
        -- exists msgBuffer, sender. split; [left; reflexivity|].
           unfold isDecodable. rewrite E. split; [reflexivity|].
           destruct (fromBuffer_Return_inv _ _ E) as (Hpl & _).
           now rewrite <- Hhead, Hpl.
        -- destruct (IH _ Htail) as (m & ri & Hm & Hd).
           exists m, ri. split; [right; exact Hm | exact Hd].
      * rewrite (runEvents_message_Throw _ _ _ _ _ E) in Hin.
        cbn [effects serialWrites flat_map app] in Hin.
        destruct (IH _ Hin) as (m & ri & Hm & Hd).
        exists m, ri. split; [right; exact Hm | exact Hd].
    + destruct (currentRemoteInfo s) as [remoteInfo|] eqn:Er;
        [destruct (isValidPort (port remoteInfo)) eqn:Hp|].
      * rewrite (runEvents_data_peer _ _ _ _ Er Hp) in Hin.
        cbn [effects serialWrites flat_map app] in Hin.
        destruct (IH _ Hin) as (m & ri & Hm & Hd).
        exists m, ri. split; [right; exact Hm | exact Hd].
      * rewrite (runEvents_data_bad_port _ _ _ _ Er Hp) in Hin.
        destruct Hin.
      * rewrite (runEvents_data_no_peer _ _ _ Er) in Hin.
        destruct Hin.
Qed.

Lemma serialWrites_origin_witness :
  exists msgBuffer remoteInfo,
    In (message msgBuffer remoteInfo) [message request1 peerA; data frame] /\
    isDecodable msgBuffer = true /\
    [x01; xff] = JS.subarray msgBuffer 8.
Proof.
  apply (serialWrites_origin [message request1 peerA; data frame]
           initialSession [x01; xff]).
  left. reflexivity.
Defined.

(** Events handled after a run that threw nothing continue from its
    state. *)
Lemma runEvents_app (evs1 evs2 : list Event) :
  forall s : Session,
    outcome (runEvents evs1 s) = Return tt ->
    runEvents (evs1 ++ evs2) s
    = mkRun (session (runEvents evs2 (session (runEvents evs1 s))))
        (effects (runEvents evs1 s)
         ++ effects (runEvents evs2 (session (runEvents evs1 s))))
        (outcome (runEvents evs2 (session (runEvents evs1 s)))).
Proof.
  induction evs1 as [|ev rest IH]; intros s Ho.
  - cbn [app runEvents hret session effects].
    now destruct (runEvents evs2 s).
  - destruct ev as [msgBuffer sender | responseData]; cbn [app].
    + destruct (fromBuffer msgBuffer) as [p|e] eqn:E.
      * rewrite (runEvents_message_Return _ _ (rest ++ evs2) _ _ E).
        rewrite (runEvents_message_Return _ _ rest _ _ E) in Ho |- *.
        cbn [session effects outcome] in Ho |- *.
        rewrite (IH _ Ho). cbn [session effects outcome].
        now rewrite <- app_assoc.
      * rewrite (runEvents_message_Throw _ _ (rest ++ evs2) _ _ E).
        rewrite (runEvents_message_Throw _ _ rest _ _ E) in Ho |- *.
        cbn [session effects outcome] in Ho |- *.
        rewrite (IH _ Ho). cbn [session effects outcome].
        now rewrite <- app_assoc.
    + destruct (currentRemoteInfo s) as [remoteInfo|] eqn:Er;
        [destruct (isValidPort (port remoteInfo)) eqn:Hp|].
      * rewrite (runEvents_data_peer _ (rest ++ evs2) _ _ Er Hp).
        rewrite (runEvents_data_peer _ rest _ _ Er Hp) in Ho |- *.
        cbn [session effects outcome] in Ho |- *.
        rewrite (IH _ Ho). cbn [session effects outcome].
        now rewrite <- app_assoc.
      * rewrite (runEvents_data_bad_port _ _ _ _ Er Hp) in Ho.
        discriminate Ho.
      * rewrite (runEvents_data_no_peer _ _ _ Er) in Ho. discriminate Ho.
Qed.

Lemma networkSends_app (es1 es2 : list Effect) :
  networkSends (es1 ++ es2) = networkSends es1 ++ networkSends es2.
Proof. apply flat_map_app. Qed.

(** Datagrams that do not decode change neither the variables nor what is
    sent. *)
Lemma runEvents_undecodable (junk rest : list Event) (s : Session) :
  forallb isUndecodableMessage junk = true ->
  session (runEvents (junk ++ rest) s) = session (runEvents rest s) /\
  outcome (runEvents (junk ++ rest) s) = outcome (runEvents rest s) /\
  networkSends (effects (runEvents (junk ++ rest) s))
  = networkSends (effects (runEvents rest s)).
Proof.
  induction junk as [|ev junk IH]; intros Hj.
  - repeat split.
  - cbn [forallb] in Hj. apply andb_true_iff in Hj. destruct Hj as [Hev Hj].
    destruct ev as [msgBuffer sender | f]; [|discriminate Hev].
    cbn [isUndecodableMessage] in Hev. unfold isDecodable in Hev.
    destruct (fromBuffer msgBuffer) as [p|e] eqn:E; [discriminate Hev|].
    cbn [app]. rewrite (runEvents_message_Throw _ _ _ _ _ E).
    cbn [session effects outcome networkSends flat_map app].
    exact (IH Hj).
Qed.

(** X18. The latest datagram that decoded decides the reply, whatever the
    history: after any run that threw nothing, a datagram that decodes
    and comes from a port [socket.send] accepts (1 to 65535), then any
    number of datagrams that do not decode, then one serial frame add
    exactly one send to those made before. It is addressed to the sender
    of that datagram and encodes its sequence number, the reply category
    chosen from its category, and the frame. *)
Theorem runEvents_latest_request (pre junk : list Event) (s : Session)
    (msgBuffer : Buffer) (remoteInfo : RemoteInfo) (p : ViscaIpPacket)
    (responseData : Buffer) :
  outcome (runEvents pre s) = Return tt ->
  fromBuffer msgBuffer = Return p ->
  0 < port remoteInfo < 65536 ->
  forallb isUndecodableMessage junk = true ->
  let r :=
    runEvents
      (pre ++ message msgBuffer remoteInfo :: junk ++ [data responseData])
      s in
  outcome r = Return tt /\
  networkSends (effects r)
  = networkSends (effects (runEvents pre s))
    ++ [(toBuffer
           (fromPayload (responsePacketTypeFor (Some (type p)))
              (sequenceNumber p) responseData),
         port remoteInfo, address remoteInfo)] /\
  session r = mkSession (sequenceNumber p) (Some remoteInfo) (Some (type p)).
Proof.
  intros Ho E Hport Hj r. subst r.
  rewrite (runEvents_app pre _ s Ho). cbn [session effects outcome].
  rewrite networkSends_app.
  rewrite (runEvents_message_Return _ _ _ (session (runEvents pre s)) _ E).
  cbn [session effects outcome networkSends flat_map app].
  set (s' := mkSession (sequenceNumber p) (Some remoteInfo) (Some (type p))).
  destruct (runEvents_undecodable junk [data responseData] s' Hj)
    as (Hs & Hout & Hn).
  fold (networkSends
          (effects (runEvents (junk ++ [data responseData]) s'))).
  rewrite Hs, Hout, Hn.
  rewrite (runEvents_data_peer responseData [] s' remoteInfo eq_refl
             (isValidPort_true _ Hport)).
  cbn [session effects outcome runEvents hret networkSends flat_map app
       currentPacketType currentSequenceNumber s'].
  repeat split.
Qed.

Lemma runEvents_latest_request_witness :
  let r :=
    runEvents
      ([message request1 peerA; data frame]
       ++ message request2 peerB
          :: [message categoryFFFF peerA] ++ [data [x90; x41; xff]])
      initialSession in
  outcome r = Return tt /\
  networkSends (effects r)
  = networkSends
      (effects (runEvents [message request1 peerA; data frame]
                  initialSession))
    ++ [([x01; x11; x00; x03; x00; x00; x00; x02; x90; x41; xff],
         50001, "192.168.0.20"%string)] /\
  session r = mkSession (Some 2) (Some peerB) (Some 0x0110).
Proof.
  apply (runEvents_latest_request [message request1 peerA; data frame]
           [message categoryFFFF peerA] initialSession request2 peerB
           (mkViscaIpPacket 0x0110 5 (Some 2) [x81; x09; x04; x47; xff])
           [x90; x41; xff]);
    [reflexivity | reflexivity | cbn; lia | reflexivity].
Defined.

(** ** The older decoder *)

(** X19. The older revision's decoder does not invert [toBuffer]: for a
    valid packet it returns the packet only when the category is [command]
    or [inquiry]; a [reply] packet comes back as a [command] packet, and
    the other three categories are rejected as unknown. *)
Theorem legacy_fromBuffer_toBuffer (p : ViscaIpPacket) :
  isValidPacket p = true ->
  LegacyCodec.fromBuffer (toBuffer p)
  = if type p =? ViscaIpPacketType.reply
    then Return (mkViscaIpPacket ViscaIpPacketType.command (length p)
                   (sequenceNumber p) (payload p))
    else if (type p =? ViscaIpPacketType.command)
            || (type p =? ViscaIpPacketType.inquiry)
    then Return p
    else Throw (UnknownCategory (type p)).
Proof.
  unfold isValidPacket. rewrite !andb_true_iff.
  intros [[[Hm Hs] Hl] Hmax].
  destruct p as [ty len [n|] pl]; cbn [type length sequenceNumber payload] in *;
    [|discriminate].
  apply andb_true_iff in Hs. destruct Hs as [Hn0 Hn1].
  apply Z.leb_le in Hn0. apply Z.ltb_lt in Hn1.
  apply Z.eqb_eq in Hl. apply Z.leb_le in Hmax.
  pose proof (isMember_range _ Hm) as Hty.
  pose proof (JS_length_nonneg pl) as Hpl.
  destruct (fromBuffer_toBuffer_fields (mkViscaIpPacket ty len (Some n) pl))
    as (E0 & E2 & E4 & E8); cbn [type length sequenceNumber payload JS.ToNumber];
    try (change (2 ^ 16) with 65536; lia); try lia.
  cbn [type length sequenceNumber payload JS.ToNumber] in *.
  unfold LegacyCodec.fromBuffer. rewrite E0, E2, E4, E8. cbn [bind].
  assert (Hin : In ty ViscaIpPacketType.members).
  { unfold ViscaIpPacketType.isMember in Hm.
    apply existsb_exists in Hm. destruct Hm as (c & Hin & Hc).
    apply Z.eqb_eq in Hc. now subst c. }
  subst len.
  destruct Hin as [<- | [<- | [<- | [<- | [<- | [<- | []]]]]]];
    cbn [Legacy._parseType]; unfold Legacy._parseType; cbn [bind];
    cbv [ViscaIpPacketType.command ViscaIpPacketType.inquiry
         ViscaIpPacketType.reply ViscaIpPacketType.deviceSettingCommand
         ViscaIpPacketType.controlCommand ViscaIpPacketType.controlReply
         Legacy.ViscaIpPacketType.command Legacy.ViscaIpPacketType.inquiry
         Legacy.ViscaIpPacketType.reply];
    cbn [Z.eqb Pos.eqb orb bind]; rewrite ?Z.eqb_refl; reflexivity.
Qed.

Lemma legacy_fromBuffer_toBuffer_witness :
  LegacyCodec.fromBuffer
    (toBuffer (mkViscaIpPacket 0x0111 3 (Some 7) [x90; x50; xff]))
  = Return (mkViscaIpPacket 0x0100 3 (Some 7) [x90; x50; xff]).
Proof.
  apply (legacy_fromBuffer_toBuffer
           (mkViscaIpPacket 0x0111 3 (Some 7) [x90; x50; xff])).
  reflexivity.
Defined.

(** ** [loadConfig] *)

Lemma mkConfig_eta (config : Config) :
  mkConfig (udpPort config) (serialPort config) (baudRate config) = config.
Proof. now destruct config. Qed.

(** X20. When [loadConfig] reports a failure: the line
    ["Failed to load config from file"] is logged exactly when reading or
    parsing threw or the file holds [null], and then [config] is left as
    it was; in every other case nothing is logged. A file holding a
    boolean, a number, a string or an array is accepted silently and
    changes nothing. *)
Theorem loadConfig_failure (parsed : option JsonValue) (config : Config) :
  (snd (loadConfig parsed config) = ["Failed to load config from file"%string]
   <-> parsed = None \/ parsed = Some JsonNull) /\
  (parsed = None \/ parsed = Some JsonNull ->
   fst (loadConfig parsed config) = config) /\
  (snd (loadConfig parsed config) <> ["Failed to load config from file"%string]
   -> snd (loadConfig parsed config) = []) /\
  (forall value,
      parsed = Some value -> value <> JsonNull ->
      (forall members, value <> JsonObject members) ->
      loadConfig parsed config = (config, [])).
Proof.
  split; [|split; [|split]].
  - split.
    + destruct parsed as [[| | | | |]|]; cbn; intros H;
        try discriminate H; auto.
    + intros [-> | ->]; reflexivity.
  - intros [-> | ->]; reflexivity.
  - destruct parsed as [[| | | | |]|]; cbn; intros H;
      try reflexivity; now elim H.
  - intros value -> Hnull Hobj.
    destruct value as [|b|x|str|elements|members];
      try (now elim Hnull); try (now elim (Hobj members));
      cbn; now rewrite mkConfig_eta.
Qed.

(** X21. What [loadConfig] does with each of the three fields of a parsed
    object, independently of the other two: a member that is missing or
    falsy ([null], [false], [0], the empty string) leaves the field of
    [config] as it was, and any truthy member is stored as it is, of
    whatever type; when a key is repeated the last occurrence counts. *)
Theorem loadConfig_fields (members : list (string * JsonValue))
    (config : Config) :
  let loaded := fst (loadConfig (Some (JsonObject members)) config) in
  (ToBoolean (lookupLast members "udpPort") = false ->
   udpPort loaded = udpPort config) /\
  (ToBoolean (lookupLast members "serialPort") = false ->
   serialPort loaded = serialPort config) /\
  (ToBoolean (lookupLast members "baudRate") = false ->
   baudRate loaded = baudRate config) /\
  (forall value, lookupLast members "udpPort" = Some value ->
                 ToBoolean (Some value) = true -> udpPort loaded = value) /\
  (forall value, lookupLast members "serialPort" = Some value ->
                 ToBoolean (Some value) = true -> serialPort loaded = value) /\
  (forall value, lookupLast members "baudRate" = Some value ->
                 ToBoolean (Some value) = true -> baudRate loaded = value).
Proof.
  intros loaded. subst loaded.
  cbn [loadConfig getMember fst udpPort serialPort baudRate].
  unfold assignIfTruthy.
  repeat split.
  - now intros ->.
  - now intros ->.
  - now intros ->.
  - intros value -> ->. reflexivity.
  - intros value -> ->. reflexivity.
  - intros value -> ->. reflexivity.
Qed.

(** ** A peer [socket.send] refuses *)


